(** * Ocean-Hazard: the detector, the aggregator and the monitor of [app.py]

    A shallow embedding of [src/app.py] and the properties of its
    specification.

    - A Python [str] is a Rocq [string]; a character stands for one code
      point (the texts covered are those whose code points are below 256).
    - The values [json.loads] produces and the dict literals of the program
      are [pyval]; a [dict] keeps its keys in insertion order.
    - Effects are explicit: a computation is a function from a [World] (the
      configured credential, the numbers of model calls and clock readings so
      far, the events emitted so far) to an [outcome] and a new world. An
      exception leaves the world it was raised in.
    - What lies outside the repository is a parameter, gathered in [Env]:
      the generative model, the clock and the JSON decoder. *)

From Stdlib Require Import String Ascii List Bool Arith ZArith Lia.
From Stdlib Require Import Numbers.DecimalString.
Import ListNotations.
Local Open Scope string_scope.
Local Open Scope list_scope.

Set Implicit Arguments.
Set Warnings "-register-all".

(** ** Python strings *)

Module PyStr.

(** [str.isspace] on one character, for code points below 256. *)
Definition isspace (c : ascii) : bool :=
  let n := nat_of_ascii c in
  (((9 <=? n) && (n <=? 13)) || ((28 <=? n) && (n <=? 32))
   || (n =? 133) || (n =? 160))%nat.

Fixpoint lstrip (s : string) : string :=
  match s with
  | EmptyString => EmptyString
  | String c r => if isspace c then lstrip r else s
  end.

(** [rstrip] keeps a character when it is not a space or when something
    is kept after it. *)
Fixpoint rstrip (s : string) : string :=
  match s with
  | EmptyString => EmptyString
  | String c r =>
      match rstrip r with
      | EmptyString => if isspace c then EmptyString else String c EmptyString
      | r' => String c r'
      end
  end.

(** [s.strip()] *)
Definition strip (s : string) : string := rstrip (lstrip s).

(** [s.startswith(p)] *)
Definition startswith (s p : string) : bool := String.prefix p s.

(** [s[:n]] and [s[n:]] for [n >= 0]. *)
Fixpoint keep (n : nat) (s : string) : string :=
  match n, s with
  | S k, String c r => String c (keep k r)
  | _, _ => EmptyString
  end.

Fixpoint skip (n : nat) (s : string) : string :=
  match n, s with
  | S k, String _ r => skip k r
  | _, _ => s
  end.

(** [s[a:-b]] for [a >= 0] and [b > 0]: the stop index is [len(s) - b],
    clamped at 0; the slice is empty when the stop does not exceed the
    start. *)
Definition slice (a b : nat) (s : string) : string :=
  skip a (keep (String.length s - b) s).

(** [sep.join(l)] *)
Fixpoint join (sep : string) (l : list string) : string :=
  match l with
  | [] => EmptyString
  | [x] => x
  | x :: r => x ++ sep ++ join sep r
  end.

(** [str(n)] for a natural number. *)
Definition of_nat (n : nat) : string := NilEmpty.string_of_uint (Nat.to_uint n).

(** [str(z)] for an integer. *)
Definition of_Z (z : Z) : string := NilEmpty.string_of_int (Z.to_int z).

(** The characters a Rocq literal cannot hold directly. *)
Definition dq : string := String (ascii_of_nat 34) EmptyString.
Definition nl : string := String (ascii_of_nat 10) EmptyString.

(** A text given by its pieces. *)
Definition cat (l : list string) : string := String.concat EmptyString l.

End PyStr.

(** ** Python values *)

Inductive pyval : Type :=
| PNone
| PBool (b : bool)
| PInt (z : Z)
| PFloat (literal : string)
| PStr (s : string)
| PList (l : list pyval)
| PDict (d : list (string * pyval)).

(** A [dict] with [str] keys, in insertion order. *)
Definition pydict := list (string * pyval).

Module Dict.

(** [d.get(k)] *)
Fixpoint get (k : string) (d : pydict) : option pyval :=
  match d with
  | [] => None
  | (k', v) :: r => if String.eqb k k' then Some v else get k r
  end.

(** [d[k] = v]: an existing key keeps its place and takes the new value,
    a new key goes to the end. *)
Fixpoint set (k : string) (v : pyval) (d : pydict) : pydict :=
  match d with
  | [] => [(k, v)]
  | (k', v') :: r =>
      if String.eqb k k' then (k, v) :: r else (k', v') :: set k v r
  end.

Definition keys (d : pydict) : list string := map fst d.

(** The dict built by inserting the pairs from left to right, as a dict
    comprehension or [dict(pairs)] does. *)
Definition of_pairs (l : list (string * pyval)) : pydict :=
  fold_left (fun d kv => set (fst kv) (snd kv) d) l [].

End Dict.

(** ** Exceptions and outcomes *)

Inductive exn_class : Type :=
| AttributeError
| TypeError
| KeyError
| JSONDecodeError
| OtherException (name : string).

(** An exception object: its class and [str(e)]. Every class above derives
    from [Exception]. *)
Record exn : Type := Exn { exn_cls : exn_class; exn_str : string }.

Definition is_JSONDecodeError (e : exn) : bool :=
  match exn_cls e with JSONDecodeError => true | _ => false end.

Inductive outcome (A : Type) : Type :=
| Returns (a : A)
| Raises (e : exn).
Arguments Raises {A} e.

(** ** The world *)

(** A piece of a formatted text: literal text, or [format(v)] of a value. *)
Inductive piece : Type :=
| Lit (s : string)
| Fmt (v : pyval).

Inductive event : Type :=
| Configure (api_key : string)
| ModelCall (model : string) (prompt : string) (image : option string)
| LogInfo (msg : string)
| LogWarning (msg : string)
| LogError (msg : string)
| Print (text : list piece)
| Sleep (seconds : Z).

Record World : Type := mkWorld {
  api_key_cfg : option string;   (* what [genai.configure] stored *)
  calls : nat;                   (* model calls made so far *)
  ticks : nat;                   (* clock readings made so far *)
  trace : list event             (* events, oldest first *)
}.

Definition world0 : World := mkWorld None 0 0 [].

(** What the model call answers: the response's text, or an exception
    (raised by the call or by reading [response.text]). *)
Inductive reply : Type :=
| Text (t : string)
| Failure (e : exn).

Record Env : Type := mkEnv {
  (* the hosted model: configured credential, model name, prompt, image,
     index of the call *)
  model_reply : option string -> string -> string -> option string -> nat -> reply;
  (* [datetime.now().isoformat()] at a given reading *)
  now_iso : nat -> string;
  (* [json.loads]: the value, or the message of the [JSONDecodeError] *)
  json_loads : string -> pyval + string
}.

(** ** The monad of effects *)

Definition M (A : Type) : Type := World -> outcome A * World.

Definition ret {A} (a : A) : M A := fun w => (Returns a, w).

Definition bind {A B} (m : M A) (f : A -> M B) : M B :=
  fun w => match m w with
           | (Returns a, w') => f a w'
           | (Raises e, w') => (Raises e, w')
           end.

Definition raise {A} (e : exn) : M A := fun w => (Raises e, w).

(** [try: body except Exception as e: handler(e)] *)
Definition try_except {A} (body : M A) (handler : exn -> M A) : M A :=
  fun w => match body w with
           | (Returns a, w') => (Returns a, w')
           | (Raises e, w') => handler e w'
           end.

(** [try: body except json.JSONDecodeError as e: handler(e)] *)
Definition try_except_json {A} (body : M A) (handler : exn -> M A) : M A :=
  fun w => match body w with
           | (Returns a, w') => (Returns a, w')
           | (Raises e, w') =>
               if is_JSONDecodeError e then handler e w' else (Raises e, w')
           end.

Declare Scope py_scope.
Delimit Scope py_scope with py.
Notation "x <- m ;; k" := (bind m (fun x => k))
  (at level 100, m at next level, right associativity) : py_scope.
Notation "m ;; k" := (bind m (fun _ => k))
  (at level 100, right associativity) : py_scope.
Local Open Scope py_scope.

(** The world after an event, after a clock reading, after a model call. *)
Definition add_event (e : event) (w : World) : World :=
  mkWorld (api_key_cfg w) (calls w) (ticks w) (trace w ++ [e]).

Definition after_tick (w : World) : World :=
  mkWorld (api_key_cfg w) (calls w) (S (ticks w)) (trace w).

Definition after_call (model prompt : string) (image : option string)
    (w : World) : World :=
  mkWorld (api_key_cfg w) (S (calls w)) (ticks w)
    (trace w ++ [ModelCall model prompt image]).

Definition emit (e : event) : M unit :=
  fun w => (Returns tt, add_event e w).

(** [datetime.now().isoformat()] *)
Definition datetime_now_isoformat (env : Env) : M string :=
  fun w => (Returns (now_iso env (ticks w)), after_tick w).

(** [genai.configure(api_key=k)] *)
Definition genai_configure (k : string) : M unit :=
  fun w => (Returns tt,
            mkWorld (Some k) (calls w) (ticks w) (trace w ++ [Configure k])).

(** [model.generate_content(...)] followed by reading [response.text]. *)
Definition generate_content (env : Env) (model prompt : string)
    (image : option string) : M string :=
  fun w =>
    match model_reply env (api_key_cfg w) model prompt image (calls w) with
    | Text t => (Returns t, after_call model prompt image w)
    | Failure e => (Raises e, after_call model prompt image w)
    end.

(** [json.loads(s)] *)
Definition loads (env : Env) (s : string) : M pyval :=
  match json_loads env s with
  | inl v => ret v
  | inr msg => raise (Exn JSONDecodeError msg)
  end.

(** ** The prompts

    The three f-strings of the program, line by line ([nl] ends a source
    line, [dq] is a double quote). *)

Module Prompt.
Import PyStr.

(** Lines 24-82; [time_range] defaults to ["24 hours"]. *)
Definition create_hazard_analysis_prompt (location time_range : string) : string :=
  cat [
    nl;
    "        You are an ocean safety expert analyzing real-time data. Search the web for current ocean hazards and conditions near "; location; " within the last "; time_range; "."; nl;
    nl;
    "        Look for information about:"; nl;
    "        1. IMMEDIATE HAZARDS:"; nl;
    "           - Shark sightings or attacks"; nl;
    "           - Jellyfish blooms"; nl;
    "           - Riptide/rip current warnings"; nl;
    "           - Large waves or dangerous surf"; nl;
    "           - Water pollution incidents"; nl;
    "           - Beach closures"; nl;
    nl;
    "        2. WEATHER-RELATED:"; nl;
    "           - Storm conditions"; nl;
    "           - High winds"; nl;
    "           - Tsunami warnings"; nl;
    "           - Storm surge alerts"; nl;
    nl;
    "        3. OFFICIAL SOURCES:"; nl;
    "           - Coast Guard announcements"; nl;
    "           - Lifeguard reports"; nl;
    "           - Local government warnings"; nl;
    "           - Weather service alerts"; nl;
    nl;
    "        4. SOCIAL MEDIA REPORTS:"; nl;
    "           - User reports of dangerous conditions"; nl;
    "           - Photos/videos of hazardous situations"; nl;
    "           - Local community warnings"; nl;
    nl;
    "        Analyze the credibility of each source and return results in this EXACT JSON format:"; nl;
    nl;
    "        {"; nl;
    "            "; dq; "location"; dq; ": "; dq; location; dq; ","; nl;
    "            "; dq; "analysis_time"; dq; ": "; dq; "current timestamp"; dq; ","; nl;
    "            "; dq; "overall_risk_level"; dq; ": "; dq; "LOW/MEDIUM/HIGH/EXTREME"; dq; ","; nl;
    "            "; dq; "hazards"; dq; ": ["; nl;
    "                {"; nl;
    "                    "; dq; "type"; dq; ": "; dq; "hazard type (shark, riptide, pollution, etc.)"; dq; ","; nl;
    "                    "; dq; "severity"; dq; ": "; dq; "LOW/MEDIUM/HIGH/EXTREME"; dq; ", "; nl;
    "                    "; dq; "location_specific"; dq; ": "; dq; "specific beach/area if mentioned"; dq; ","; nl;
    "                    "; dq; "description"; dq; ": "; dq; "detailed description of the hazard"; dq; ","; nl;
    "                    "; dq; "source"; dq; ": "; dq; "where this information came from"; dq; ","; nl;
    "                    "; dq; "credibility"; dq; ": "; dq; "HIGH/MEDIUM/LOW based on source reliability"; dq; ","; nl;
    "                    "; dq; "reported_time"; dq; ": "; dq; "when this was reported"; dq; ","; nl;
    "                    "; dq; "coordinates"; dq; ": "; dq; "lat,lng if available"; dq; ","; nl;
    "                    "; dq; "recommended_action"; dq; ": "; dq; "what people should do"; dq; nl;
    "                }"; nl;
    "            ],"; nl;
    "            "; dq; "safe_areas"; dq; ": ["; dq; "list of areas reported as safe"; dq; "],"; nl;
    "            "; dq; "general_conditions"; dq; ": "; dq; "overall summary of ocean conditions"; dq; ","; nl;
    "            "; dq; "last_updated"; dq; ": "; dq; "timestamp"; dq; nl;
    "        }"; nl;
    nl;
    "        IMPORTANT: Return ONLY valid JSON. No additional text or explanation."; nl;
    "        "
  ].

(** Lines 126-148, [base_prompt] of [analyze_user_report]. *)
Definition user_report_prompt (report_text location : string) : string :=
  cat [
    nl;
    "            Analyze this user report about ocean conditions at "; location; ":"; nl;
    "            "; nl;
    "            User Report: "; dq; report_text; dq; nl;
    "            "; nl;
    "            Determine:"; nl;
    "            1. Is this a legitimate safety concern?"; nl;
    "            2. What type of hazard (if any) is being reported?"; nl;
    "            3. How urgent is this report?"; nl;
    "            4. What's the credibility level?"; nl;
    "            "; nl;
    "            Return in JSON format:"; nl;
    "            {"; nl;
    "                "; dq; "is_hazard"; dq; ": true/false,"; nl;
    "                "; dq; "hazard_type"; dq; ": "; dq; "type if applicable"; dq; ","; nl;
    "                "; dq; "urgency"; dq; ": "; dq; "LOW/MEDIUM/HIGH/CRITICAL"; dq; ","; nl;
    "                "; dq; "credibility"; dq; ": "; dq; "LOW/MEDIUM/HIGH"; dq; ","; nl;
    "                "; dq; "recommended_action"; dq; ": "; dq; "what should be done"; dq; ","; nl;
    "                "; dq; "requires_verification"; dq; ": true/false,"; nl;
    "                "; dq; "location_specific"; dq; ": "; dq; "specific area mentioned"; dq; ","; nl;
    "                "; dq; "summary"; dq; ": "; dq; "brief summary of the report"; dq; nl;
    "            }"; nl;
    "            "
  ].

(** Lines 177-204, [prompt] of [analyze_batch_social_posts]; [n_posts] is
    [len(posts)]. *)
Definition batch_posts_prompt (posts_text location : string) (n_posts : nat) : string :=
  cat [
    nl;
    "        Analyze these social media posts about ocean conditions near "; location; ":"; nl;
    "        "; nl;
    "        "; posts_text; nl;
    "        "; nl;
    "        For each post that mentions a potential ocean hazard:"; nl;
    "        1. Extract relevant safety information"; nl;
    "        2. Assess credibility "; nl;
    "        3. Determine if it requires attention"; nl;
    "        "; nl;
    "        Return JSON:"; nl;
    "        {"; nl;
    "            "; dq; "location"; dq; ": "; dq; location; dq; ","; nl;
    "            "; dq; "total_posts_analyzed"; dq; ": "; of_nat n_posts; ","; nl;
    "            "; dq; "hazard_posts"; dq; ": ["; nl;
    "                {"; nl;
    "                    "; dq; "post_number"; dq; ": 1,"; nl;
    "                    "; dq; "hazard_type"; dq; ": "; dq; "type"; dq; ","; nl;
    "                    "; dq; "severity"; dq; ": "; dq; "LOW/MEDIUM/HIGH"; dq; ","; nl;
    "                    "; dq; "credibility"; dq; ": "; dq; "LOW/MEDIUM/HIGH"; dq; ","; nl;
    "                    "; dq; "summary"; dq; ": "; dq; "what the post reports"; dq; ","; nl;
    "                    "; dq; "location_mentioned"; dq; ": "; dq; "specific area if any"; dq; nl;
    "                }"; nl;
    "            ],"; nl;
    "            "; dq; "overall_assessment"; dq; ": "; dq; "summary of findings"; dq; ","; nl;
    "            "; dq; "recommendation"; dq; ": "; dq; "what action to take if any"; dq; nl;
    "        }"; nl;
    "        "
  ].

(** Line 175: the posts, numbered from 1 and joined. *)
Fixpoint numbered (i : nat) (posts : list string) : list string :=
  match posts with
  | [] => []
  | post :: r =>
      ("Post " ++ of_nat (i + 1) ++ ": " ++ post)%string :: numbered (S i) r
  end.

Definition posts_text (posts : list string) : string :=
  join (nl ++ nl ++ "---POST---" ++ nl) (numbered 0 posts).

End Prompt.

(** ** Operations on Python objects *)

Module Py.

Definition type_name (o : pyval) : string :=
  match o with
  | PNone => "NoneType"
  | PBool _ => "bool"
  | PInt _ => "int"
  | PFloat _ => "float"
  | PStr _ => "str"
  | PList _ => "list"
  | PDict _ => "dict"
  end.

(** [o[k] = v] for a [str] key. *)
Definition setitem (o : pyval) (k : string) (v : pyval) : M pyval :=
  match o with
  | PDict d => ret (PDict (Dict.set k v d))
  | PList _ =>
      raise (Exn TypeError "list indices must be integers or slices, not str")
  | _ =>
      raise (Exn TypeError
               ("'" ++ type_name o ++ "' object does not support item assignment"))
  end.

(** [o[k]] for a [str] key. *)
Definition getitem (o : pyval) (k : string) : M pyval :=
  match o with
  | PDict d =>
      match Dict.get k d with
      | Some v => ret v
      | None => raise (Exn KeyError ("'" ++ k ++ "'"))
      end
  | PList _ =>
      raise (Exn TypeError "list indices must be integers or slices, not str")
  | PStr _ =>
      raise (Exn TypeError "string indices must be integers, not 'str'")
  | _ =>
      raise (Exn TypeError ("'" ++ type_name o ++ "' object is not subscriptable"))
  end.

(** [o.get(k)] *)
Definition get (o : pyval) (k : string) : M (option pyval) :=
  match o with
  | PDict d => ret (Dict.get k d)
  | _ =>
      raise (Exn AttributeError
               ("'" ++ type_name o ++ "' object has no attribute 'get'"))
  end.

(** [o.get(k, default)] *)
Definition get_default (o : pyval) (k : string) (default : pyval) : M pyval :=
  r <- get o k ;;
  ret (match r with Some v => v | None => default end).

(** [o.items()] *)
Definition items (o : pyval) : M (list (string * pyval)) :=
  match o with
  | PDict d => ret d
  | _ =>
      raise (Exn AttributeError
               ("'" ++ type_name o ++ "' object has no attribute 'items'"))
  end.

Fixpoint chars (s : string) : list pyval :=
  match s with
  | EmptyString => []
  | String c r => PStr (String c EmptyString) :: chars r
  end.

(** What [for x in o] runs through. *)
Definition iter (o : pyval) : M (list pyval) :=
  match o with
  | PList l => ret l
  | PDict d => ret (map (fun kv => PStr (fst kv)) d)
  | PStr s => ret (chars s)
  | _ => raise (Exn TypeError ("'" ++ type_name o ++ "' object is not iterable"))
  end.

(** [x in ["HIGH", "EXTREME"]] for the result [x] of a [get]. *)
Definition in_HIGH_EXTREME (x : option pyval) : bool :=
  match x with
  | Some (PStr s) => String.eqb s "HIGH" || String.eqb s "EXTREME"
  | _ => false
  end.

(** [for x in l: body(x)] *)
Fixpoint for_each {A} (l : list A) (body : A -> M unit) : M unit :=
  match l with
  | [] => ret tt
  | x :: r => body x ;; for_each r body
  end.

(** [await asyncio.gather( *tasks, return_exceptions=True)] for coroutines
    that do not suspend: each runs to its end in turn, and an exception
    becomes the task's result. *)
Fixpoint gather {A} (tasks : list (M A)) : M (list (outcome A)) :=
  match tasks with
  | [] => ret []
  | t :: r =>
      fun w =>
        let (o, w1) := t w in
        match gather r w1 with
        | (Returns os, w2) => (Returns (o :: os), w2)
        | (Raises e, w2) => (Raises e, w2)
        end
  end.

End Py.

(** ** The nested functions of lines 220-245

    Line 170 starts [async def analyze_batch_social_posts] at the first
    column: the body of [class OceanHazardDetector] ends at line 168. The two
    [def]s that follow on lines 220 and 232 are indented under that
    module-level function, after its [try] statement, whose two branches both
    return: the [def] statements are never executed, and neither name is ever
    an attribute of the class or of an instance. Their bodies are translated
    as they are written: the first here, the second, which calls
    [self.analyze_current_hazards], after the class. *)

(** Lines 220-230. *)
Definition _create_error_response (env : Env) (location error : string)
  : M pyval :=
  now <- datetime_now_isoformat env ;;
  ret (PDict [("location", PStr location);
              ("overall_risk_level", PStr "UNKNOWN");
              ("hazards", PList []);
              ("error", PStr error);
              ("analysis_time", PStr now)]).

(** ** [class OceanHazardDetector] (lines 15-168) *)

Module OceanHazardDetector.
Import PyStr.

(** An instance: the two attributes [__init__] binds. *)
Record t : Type := mk { model : string; vision_model : string }.

(** The names bound in the class body, and by [__init__] on the instance. *)
Definition class_attributes : list string :=
  ["__init__"; "create_hazard_analysis_prompt"; "analyze_current_hazards";
   "analyze_user_report"].

Definition instance_attributes : list string := ["model"; "vision_model"].

Definition hasattr (name : string) : bool :=
  existsb (String.eqb name) (instance_attributes ++ class_attributes).

Definition no_attribute (name : string) : exn :=
  Exn AttributeError
    ("'OceanHazardDetector' object has no attribute '" ++ name ++ "'").

(** [self.name]: an [AttributeError] when the name is bound nowhere. *)
Definition getattr (name : string) : M unit :=
  if hasattr name then ret tt else raise (no_attribute name).

(** [self.name(args)]: the attribute is looked up, then the call is made. *)
Definition call_method {A} (name : string) (call : M A) : M A :=
  getattr name ;; call.

(** Lines 16-22. The parameter [api_key] is not used. *)
Definition __init__ (api_key : string) : M t :=
  genai_configure "API_KEY" ;;
  ret (mk "gemini-2.5-flash" "gemini-2.5-flash-vision").

(** A text wrapped in a [```json] fence or in a bare fence, each fence on a
    line of its own. *)
Definition fenced_json (body : string) : string :=
  "```json" ++ nl ++ body ++ nl ++ "```".

Definition fenced_bare (body : string) : string :=
  "```" ++ nl ++ body ++ nl ++ "```".

(** Lines 98-101 (and 209-212): both fences. *)
Definition strip_fences (response_text : string) : string :=
  if startswith response_text "```json" then strip (slice 7 3 response_text)
  else if startswith response_text "```" then strip (slice 3 3 response_text)
  else response_text.

(** Lines 158-159: the [```json] fence only. *)
Definition strip_json_fence (response_text : string) : string :=
  if startswith response_text "```json" then strip (slice 7 3 response_text)
  else response_text.

(** [not response.text] *)
Definition is_empty (s : string) : bool :=
  match s with EmptyString => true | _ => false end.

(** The prompt of the hazard scan (what the method of lines 24-82 returns
    on line 89) and what the model answers to it in a given world (line
    90). *)
Definition hazard_prompt (location : string) : string :=
  Prompt.create_hazard_analysis_prompt location "24 hours".

Definition hazard_scan_reply (env : Env) (self : t) (location : string)
    (w : World) : reply :=
  model_reply env (api_key_cfg w) (model self) (hazard_prompt location) None
    (calls w).

(** Lines 84-119. *)
Definition analyze_current_hazards (env : Env) (self : t) (location : string)
  : M pyval :=
  try_except
    (prompt <- call_method "create_hazard_analysis_prompt"
                 (ret (hazard_prompt location)) ;;
     text <- generate_content env (model self) prompt None ;;
     if is_empty text then
       emit (LogWarning ("No data returned for " ++ location)) ;;
       call_method "_create_error_response"
         (_create_error_response env location "no_data")
     else
       let response_text := strip_fences (strip text) in
       try_except_json
         (hazard_data <- loads env response_text ;;
          now <- datetime_now_isoformat env ;;
          hazard_data <- Py.setitem hazard_data "processed_at" (PStr now) ;;
          hazard_data <- Py.setitem hazard_data "source"
                           (PStr "gemini_web_analysis") ;;
          emit (LogInfo ("Successfully analyzed hazards for " ++ location)) ;;
          ret hazard_data)
         (fun e =>
            emit (LogError ("JSON parse error: " ++ exn_str e ++ nl
                            ++ "Response: " ++ response_text)) ;;
            call_method "_create_error_response"
              (_create_error_response env location "json_parse_error")))
    (fun e =>
       emit (LogError ("Error analyzing hazards: " ++ exn_str e)) ;;
       call_method "_create_error_response"
         (_create_error_response env location (exn_str e))).

(** [if image_data]: neither [None] nor empty. *)
Definition truthy (image_data : option string) : bool :=
  match image_data with
  | Some (String _ _) => true
  | _ => false
  end.

(** Lines 121-168. *)
Definition analyze_user_report (env : Env) (self : t)
    (report_text location : string) (image_data : option string) : M pyval :=
  try_except
    (let base_prompt := Prompt.user_report_prompt report_text location in
     text <- (if truthy image_data
              then generate_content env (vision_model self) base_prompt image_data
              else generate_content env (model self) base_prompt None) ;;
     let response_text := strip_json_fence (strip text) in
     analysis <- loads env response_text ;;
     now <- datetime_now_isoformat env ;;
     analysis <- Py.setitem analysis "processed_at" (PStr now) ;;
     ret analysis)
    (fun e =>
       emit (LogError ("Error analyzing user report: " ++ exn_str e)) ;;
       ret (PDict [("error", PStr (exn_str e)); ("is_hazard", PBool false)])).

End OceanHazardDetector.

(** ** The second nested function (lines 232-245)

    See the note on the nested functions above. [self] is a detector, and
    [self.analyze_current_hazards] is a method of the class. *)

(** Line 242: a result as it is, an exception as [{"error": str(result)}]. *)
Definition result_or_error (result : outcome pyval) : pyval :=
  match result with
  | Returns v => v
  | Raises e => PDict [("error", PStr (exn_str e))]
  end.

(** Lines 232-245. *)
Definition get_multi_location_analysis (env : Env)
    (self : OceanHazardDetector.t) (locations : list string) : M pyval :=
  let tasks :=
    map (OceanHazardDetector.analyze_current_hazards env self) locations in
  results <- Py.gather tasks ;;
  now <- datetime_now_isoformat env ;;
  ret (PDict
         [("analysis_time", PStr now);
          ("locations",
           PDict (Dict.of_pairs
                    (map (fun lr => (fst lr, result_or_error (snd lr)))
                         (combine locations results))))]).

(** ** Startup (lines 305-310)

    [credential] is what [os.getenv("GEMINI_API_KEY")] gives once
    [load_dotenv()] has run. *)
Definition startup (credential : option string) : M OceanHazardDetector.t :=
  match credential with
  | Some (String c k) => OceanHazardDetector.__init__ (String c k)
  | _ =>
      raise (Exn (OtherException "ValueError")
               "GEMINI_API_KEY not found in .env file")
  end.

(** ** The module-level function of line 170

    Its [self] is whatever the caller passes; with a detector,
    [self.model] is the text model. Lines 174-218; the statements after them
    are the unreachable [def]s above. *)
Definition analyze_batch_social_posts (env : Env) (self : OceanHazardDetector.t)
    (posts : list string) (location : string) : M pyval :=
  try_except
    (let posts_text := Prompt.posts_text posts in
     let prompt := Prompt.batch_posts_prompt posts_text location (length posts) in
     text <- generate_content env (OceanHazardDetector.model self) prompt None ;;
     let response_text :=
       OceanHazardDetector.strip_fences (PyStr.strip text) in
     loads env response_text)
    (fun e =>
       emit (LogError ("Error in batch analysis: " ++ exn_str e)) ;;
       ret (PDict [("error", PStr (exn_str e))])).

(** ** [class HazardMonitoringService] (lines 248-281) *)

Module HazardMonitoringService.

Record t : Type := mk { detector : OceanHazardDetector.t }.

(** Lines 249-250. *)
Definition __init__ (api_key : string) : M t :=
  d <- OceanHazardDetector.__init__ api_key ;;
  ret (mk d).

(** The first four characters of the text printed on line 277, as the bytes
    the source file holds for them. *)
Definition alert_glyph : string :=
  string_of_list_ascii
    (map ascii_of_nat [195; 176; 197; 184; 197; 161; 194; 168]).

(** Lines 273-281. *)
Definition send_alert (location : string) (hazard_data : pyval) : M unit :=
  emit (Print [Lit alert_glyph; Lit " HIGH RISK ALERT for "; Lit location;
               Lit ":"]) ;;
  level <- Py.getitem hazard_data "overall_risk_level" ;;
  emit (Print [Lit "Risk Level: "; Fmt level]) ;;
  hazards <- Py.get_default hazard_data "hazards" (PList []) ;;
  hazards <- Py.iter hazards ;;
  Py.for_each hazards
    (fun hazard =>
       ty <- Py.getitem hazard "type" ;;
       description <- Py.getitem hazard "description" ;;
       emit (Print [Lit "- "; Fmt ty; Lit ": "; Fmt description])).

(** Lines 257-271: one turn of the [while True] loop. The aggregator is
    called as [self.detector.get_multi_location_analysis(locations)]. *)
Definition monitoring_cycle (env : Env) (self : t) (locations : list string)
    (interval_minutes : Z) : M unit :=
  try_except
    (emit (Print [Lit "Monitoring "; Lit (PyStr.of_nat (length locations));
                  Lit " locations..."]) ;;
     results <- OceanHazardDetector.call_method "get_multi_location_analysis"
                  (get_multi_location_analysis env (detector self)
                     locations) ;;
     per_location <- Py.getitem results "locations" ;;
     items <- Py.items per_location ;;
     Py.for_each items
       (fun item =>
          let location := fst item in
          let data := snd item in
          level <- Py.get data "overall_risk_level" ;;
          if Py.in_HIGH_EXTREME level then send_alert location data
          else ret tt) ;;
     emit (Sleep (interval_minutes * 60)))
    (fun e =>
       emit (LogError ("Error in continuous monitoring: " ++ exn_str e)) ;;
       emit (Sleep 60)).

(** Where the loop stands after a number of turns: still in it, or left
    through an exception ([while True] has no [break] and no [return]). *)
Inductive progress : Type :=
| StillRunning
| Escaped (e : exn).

(** Lines 252-271, run for at most [turns] turns of the loop. *)
Fixpoint continuous_monitoring (turns : nat) (env : Env) (self : t)
    (locations : list string) (interval_minutes : Z) (w : World)
  : progress * World :=
  match turns with
  | O => (StillRunning, w)
  | S n =>
      match monitoring_cycle env self locations interval_minutes w with
      | (Returns _, w') =>
          continuous_monitoring n env self locations interval_minutes w'
      | (Raises e, w') => (Escaped e, w')
      end
  end.

End HazardMonitoringService.

(** ** Environments for the examples

    A model that answers every call with one text, a clock that reads
    ["T0"], ["T1"], ..., and a decoder given by its values on the texts an
    example sends to it (any other text is refused). *)

Module Examples.

Fixpoint lookup_text (s : string) (table : list (string * pyval)) : option pyval :=
  match table with
  | [] => None
  | (k, v) :: r => if String.eqb s k then Some v else lookup_text s r
  end.

Definition decoder (table : list (string * pyval)) (s : string) : pyval + string :=
  match lookup_text s table with
  | Some v => inl v
  | None => inr "Expecting value: line 1 column 1 (char 0)"
  end.

Definition clock (n : nat) : string := "T" ++ PyStr.of_nat n.

Definition answering (r : reply) (table : list (string * pyval)) : Env :=
  mkEnv (fun _ _ _ _ _ => r) clock (decoder table).

Definition a_detector : OceanHazardDetector.t :=
  OceanHazardDetector.mk "gemini-2.5-flash" "gemini-2.5-flash-vision".

Definition a_service : HazardMonitoringService.t :=
  HazardMonitoringService.mk a_detector.

(** [{}] *)
Definition text_empty_object : string := "{}".

(** [{"overall_risk_level": "SEVERE"}] *)
Definition text_severe : string :=
  PyStr.cat ["{"; PyStr.dq; "overall_risk_level"; PyStr.dq; ": "; PyStr.dq;
             "SEVERE"; PyStr.dq; "}"].

Definition value_severe : pyval :=
  PDict [("overall_risk_level", PStr "SEVERE")].

(** [{"overall_risk_level": "HIGH"}] *)
Definition text_high : string :=
  PyStr.cat ["{"; PyStr.dq; "overall_risk_level"; PyStr.dq; ": "; PyStr.dq;
             "HIGH"; PyStr.dq; "}"].

Definition value_high : pyval := PDict [("overall_risk_level", PStr "HIGH")].

(** [{"location": "Malibu", "overall_risk_level": "LOW", "hazards": []}] *)
Definition text_report : string :=
  PyStr.cat ["{"; PyStr.dq; "location"; PyStr.dq; ": "; PyStr.dq; "Malibu";
             PyStr.dq; ", "; PyStr.dq; "overall_risk_level"; PyStr.dq; ": ";
             PyStr.dq; "LOW"; PyStr.dq; ", "; PyStr.dq; "hazards"; PyStr.dq;
             ": []}"].

Definition value_report : pyval :=
  PDict [("location", PStr "Malibu"); ("overall_risk_level", PStr "LOW");
         ("hazards", PList [])].

(** [{"is_hazard": true}] *)
Definition text_is_hazard : string :=
  PyStr.cat ["{"; PyStr.dq; "is_hazard"; PyStr.dq; ": true}"].

Definition value_is_hazard : pyval := PDict [("is_hazard", PBool true)].

(** [{"total_posts_analyzed": 4, "hazard_posts": [{"post_number": 1}]}] *)
Definition text_four_posts : string :=
  PyStr.cat ["{"; PyStr.dq; "total_posts_analyzed"; PyStr.dq; ": 4, ";
             PyStr.dq; "hazard_posts"; PyStr.dq; ": [{"; PyStr.dq;
             "post_number"; PyStr.dq; ": 1}]}"].

Definition value_four_posts : pyval :=
  PDict [("total_posts_analyzed", PInt 4);
         ("hazard_posts", PList [PDict [("post_number", PInt 1)]])].

Definition a_network_error : exn :=
  Exn (OtherException "ConnectionError") "connection reset".

End Examples.

(** ** Worlds and shapes the properties speak of *)

(** The world after a list of events. *)
Definition after_events (evs : list event) (w : World) : World :=
  fold_left (fun w' ev => add_event ev w') evs w.

(** The world when the handler of line 117 has logged [e] after the model
    call and the events [evs] that followed it. *)
Definition hazard_failure_world (self : OceanHazardDetector.t)
    (location : string) (evs : list event) (e : exn) (w : World) : World :=
  add_event (LogError ("Error analyzing hazards: " ++ exn_str e))
    (after_events evs
       (after_call (OceanHazardDetector.model self)
          (OceanHazardDetector.hazard_prompt location) None w)).

(** The five risk levels of the data model. *)
Definition risk_levels : list string :=
  ["LOW"; "MEDIUM"; "HIGH"; "EXTREME"; "UNKNOWN"].

(** An object whose [location] is [L], whose [overall_risk_level] is one of
    the five levels and which has a [hazards] field. *)
Definition has_report_fields (L : string) (r : pyval) : bool :=
  match r with
  | PDict d =>
      match Dict.get "location" d, Dict.get "overall_risk_level" d,
            Dict.get "hazards" d with
      | Some (PStr l), Some (PStr lvl), Some _ =>
          String.eqb l L && existsb (String.eqb lvl) risk_levels
      | _, _, _ => false
      end
  | _ => false
  end.

(** The ErrorResponse shape: the location, risk level [UNKNOWN], no hazards,
    the error code, and an analysis time. *)
Definition is_error_response (L code : string) (r : pyval) : bool :=
  match r with
  | PDict d =>
      match Dict.get "location" d, Dict.get "overall_risk_level" d,
            Dict.get "hazards" d, Dict.get "error" d,
            Dict.get "analysis_time" d with
      | Some (PStr l), Some (PStr lvl), Some (PList []), Some (PStr c),
        Some (PStr _) =>
          String.eqb l L && String.eqb lvl "UNKNOWN" && String.eqb c code
      | _, _, _, _, _ => false
      end
  | _ => false
  end.

(** The fallback of the user-report path (line 168). *)
Definition error_pair (e : exn) : pyval :=
  PDict [("error", PStr (exn_str e)); ("is_hazard", PBool false)].

(** What the model answers to the user-report prompt (lines 150-154). *)
Definition user_report_reply (env : Env) (self : OceanHazardDetector.t)
    (report_text location : string) (image_data : option string) (w : World)
  : reply :=
  if OceanHazardDetector.truthy image_data
  then model_reply env (api_key_cfg w) (OceanHazardDetector.vision_model self)
         (Prompt.user_report_prompt report_text location) image_data (calls w)
  else model_reply env (api_key_cfg w) (OceanHazardDetector.model self)
         (Prompt.user_report_prompt report_text location) None (calls w).

(** What the model answers to the batch prompt (line 206). *)
Definition batch_reply (env : Env) (self : OceanHazardDetector.t)
    (posts : list string) (location : string) (w : World) : reply :=
  model_reply env (api_key_cfg w) (OceanHazardDetector.model self)
    (Prompt.batch_posts_prompt (Prompt.posts_text posts) location
       (length posts))
    None (calls w).

(** The events of a turn of the monitor in which the aggregator cannot be
    looked up: the announcement, the logged error, the 60-second pause. *)
Definition failed_cycle_events (locations : list string) : list event :=
  [Print [Lit "Monitoring "; Lit (PyStr.of_nat (length locations));
          Lit " locations..."];
   LogError ("Error in continuous monitoring: "
             ++ exn_str (OceanHazardDetector.no_attribute
                           "get_multi_location_analysis"));
   Sleep 60].

(** The events that are alerts: the first line [send_alert] prints. *)
Definition is_alert (ev : event) : bool :=
  match ev with
  | Print (Lit g :: Lit h :: _) =>
      String.eqb g HazardMonitoringService.alert_glyph
      && String.eqb h " HIGH RISK ALERT for "
  | _ => false
  end.

(** A prompt whose schema carries the line ["total_posts_analyzed": 0,]. *)
Definition asks_for_zero_posts (prompt : string) : Prop :=
  exists pre post,
    prompt
    = (pre ++ (PyStr.dq ++ "total_posts_analyzed" ++ PyStr.dq ++ ": 0,")
           ++ post)%string.

(** What the specification expects of the batch analysis of no posts. *)
Definition reports_no_posts (r : pyval) : Prop :=
  exists d, r = PDict d
            /\ Dict.get "total_posts_analyzed" d = Some (PInt 0)
            /\ Dict.get "hazard_posts" d = Some (PList []).

(** ** The HTTP surface (lines 312-324)

    A handler either returns a body, which the framework sends with status
    200, or raises an [HTTPException]. [detector] is the module-level
    detector of line 310. *)

Module Endpoints.

Inductive response : Type :=
| Ok (body : pyval)
| HTTPException (status_code : Z) (detail : string).


(** Lines 319-324, [POST /analyze-user-report]; no image is passed. *)
Definition analyze_user_report (env : Env) (detector : OceanHazardDetector.t)
    (report location : string) (w : World) : response * World :=
  match OceanHazardDetector.analyze_user_report env detector report location
          None w with
  | (Returns r, w') => (Ok r, w')
  | (Raises e, w') => (HTTPException 500 (exn_str e), w')
  end.

End Endpoints.

(** ** [main] (lines 327-360)

    [json_dumps] stands for [json.dumps(_, indent=2)]; [credential] is what
    [os.getenv] gives, as in [startup]. The four calls are method calls on
    the detector. *)

Definition sample_user_report : string :=
  "I saw a large shark about 100 yards from shore at Malibu beach this morning around 9am".

Definition sample_posts : list string :=
  ["Huge waves at Huntington Beach today, lifeguards telling everyone to stay out";
   "Beautiful day at Manhattan Beach, perfect swimming conditions!";
   "Warning: saw multiple jellyfish at Redondo Beach pier, got stung";
   "Storm coming in fast at Malibu, waves getting dangerous"].

Definition sample_locations : list string :=
  ["Santa Monica"; "Venice Beach"; "Manhattan Beach"].

Definition main (env : Env) (json_dumps : pyval -> string)
    (credential : option string) : M unit :=
  detector <- startup credential ;;
  emit (Print [Lit "=== CURRENT HAZARD ANALYSIS ==="]) ;;
  hazards <- OceanHazardDetector.call_method "analyze_current_hazards"
               (OceanHazardDetector.analyze_current_hazards env detector
                  "Santa Monica Beach, California") ;;
  emit (Print [Lit (json_dumps hazards)]) ;;
  emit (Print [Lit (PyStr.nl ++ "=== USER REPORT ANALYSIS ===")]) ;;
  analysis <- OceanHazardDetector.call_method "analyze_user_report"
                (OceanHazardDetector.analyze_user_report env detector
                   sample_user_report "Malibu Beach, California" None) ;;
  emit (Print [Lit (json_dumps analysis)]) ;;
  emit (Print [Lit (PyStr.nl ++ "=== BATCH SOCIAL MEDIA ANALYSIS ===")]) ;;
  batch_analysis <- OceanHazardDetector.call_method "analyze_batch_social_posts"
                      (analyze_batch_social_posts env detector sample_posts
                         "Los Angeles County Beaches") ;;
  emit (Print [Lit (json_dumps batch_analysis)]) ;;
  emit (Print [Lit (PyStr.nl ++ "=== MULTI-LOCATION ANALYSIS ===")]) ;;
  multi_analysis <- OceanHazardDetector.call_method "get_multi_location_analysis"
                      (get_multi_location_analysis env detector
                         sample_locations) ;;
  emit (Print [Lit (json_dumps multi_analysis)]).

(** ** Shapes the further properties speak of *)

Definition is_model_call (ev : event) : bool :=
  match ev with ModelCall _ _ _ => true | _ => false end.

(** The line [send_alert] prints for one hazard (line 280). *)
Definition hazard_line (ty description : pyval) : event :=
  Print [Lit "- "; Fmt ty; Lit ": "; Fmt description].

(** A hazard entry that is an object with a [type] and a [description]. *)
Definition hazard_fields (hazard : pyval) : option (pyval * pyval) :=
  match hazard with
  | PDict d =>
      match Dict.get "type" d, Dict.get "description" d with
      | Some ty, Some description => Some (ty, description)
      | _, _ => None
      end
  | _ => None
  end.

(** The lines printed for a list of hazards, up to the first entry that is
    not such an object. *)
Fixpoint hazard_lines (hazards : list pyval) : list event :=
  match hazards with
  | [] => []
  | h :: r =>
      match hazard_fields h with
      | Some (ty, description) => hazard_line ty description :: hazard_lines r
      | None => []
      end
  end.

(** The two lines [send_alert] prints first (lines 277-278). *)
Definition alert_head (location : string) (level : pyval) : list event :=
  [Print [Lit HazardMonitoringService.alert_glyph;
          Lit " HIGH RISK ALERT for "; Lit location; Lit ":"];
   Print [Lit "Risk Level: "; Fmt level]].

(** The model and the image the user-report path sends (lines 150-154). *)
Definition user_report_model (self : OceanHazardDetector.t)
    (image_data : option string) : string :=
  if OceanHazardDetector.truthy image_data
  then OceanHazardDetector.vision_model self
  else OceanHazardDetector.model self.

Definition user_report_image (image_data : option string) : option string :=
  if OceanHazardDetector.truthy image_data then image_data else None.

Definition well_formed_hazard (hazard : pyval) : bool :=
  match hazard_fields hazard with Some _ => true | None => false end.

Definition is_print (ev : event) : bool :=
  match ev with Print _ => true | _ => false end.

(** ** The parts of the hazard prompt

    The text of lines 28-82 around the two places where the location is
    put and the place where the time range is put. *)

Module PromptParts.
Import PyStr.

(** Up to the first location. *)
Definition hazard_head : string :=
  cat [
    nl;
    "        You are an ocean safety expert analyzing real-time data. Search the web for current ocean hazards and conditions near "
  ].

(** From the end of the time range to the second location. *)
Definition hazard_middle : string :=
  cat [
    "."; nl;
    nl;
    "        Look for information about:"; nl;
    "        1. IMMEDIATE HAZARDS:"; nl;
    "           - Shark sightings or attacks"; nl;
    "           - Jellyfish blooms"; nl;
    "           - Riptide/rip current warnings"; nl;
    "           - Large waves or dangerous surf"; nl;
    "           - Water pollution incidents"; nl;
    "           - Beach closures"; nl;
    nl;
    "        2. WEATHER-RELATED:"; nl;
    "           - Storm conditions"; nl;
    "           - High winds"; nl;
    "           - Tsunami warnings"; nl;
    "           - Storm surge alerts"; nl;
    nl;
    "        3. OFFICIAL SOURCES:"; nl;
    "           - Coast Guard announcements"; nl;
    "           - Lifeguard reports"; nl;
    "           - Local government warnings"; nl;
    "           - Weather service alerts"; nl;
    nl;
    "        4. SOCIAL MEDIA REPORTS:"; nl;
    "           - User reports of dangerous conditions"; nl;
    "           - Photos/videos of hazardous situations"; nl;
    "           - Local community warnings"; nl;
    nl;
    "        Analyze the credibility of each source and return results in this EXACT JSON format:"; nl;
    nl;
    "        {"; nl;
    "            "; dq; "location"; dq; ": "; dq
  ].

(** After the second location. *)
Definition hazard_tail : string :=
  cat [
    dq; ","; nl;
    "            "; dq; "analysis_time"; dq; ": "; dq; "current timestamp"; dq; ","; nl;
    "            "; dq; "overall_risk_level"; dq; ": "; dq; "LOW/MEDIUM/HIGH/EXTREME"; dq; ","; nl;
    "            "; dq; "hazards"; dq; ": ["; nl;
    "                {"; nl;
    "                    "; dq; "type"; dq; ": "; dq; "hazard type (shark, riptide, pollution, etc.)"; dq; ","; nl;
    "                    "; dq; "severity"; dq; ": "; dq; "LOW/MEDIUM/HIGH/EXTREME"; dq; ", "; nl;
    "                    "; dq; "location_specific"; dq; ": "; dq; "specific beach/area if mentioned"; dq; ","; nl;
    "                    "; dq; "description"; dq; ": "; dq; "detailed description of the hazard"; dq; ","; nl;
    "                    "; dq; "source"; dq; ": "; dq; "where this information came from"; dq; ","; nl;
    "                    "; dq; "credibility"; dq; ": "; dq; "HIGH/MEDIUM/LOW based on source reliability"; dq; ","; nl;
    "                    "; dq; "reported_time"; dq; ": "; dq; "when this was reported"; dq; ","; nl;
    "                    "; dq; "coordinates"; dq; ": "; dq; "lat,lng if available"; dq; ","; nl;
    "                    "; dq; "recommended_action"; dq; ": "; dq; "what people should do"; dq; nl;
    "                }"; nl;
    "            ],"; nl;
    "            "; dq; "safe_areas"; dq; ": ["; dq; "list of areas reported as safe"; dq; "],"; nl;
    "            "; dq; "general_conditions"; dq; ": "; dq; "overall summary of ocean conditions"; dq; ","; nl;
    "            "; dq; "last_updated"; dq; ": "; dq; "timestamp"; dq; nl;
    "        }"; nl;
    nl;
    "        IMPORTANT: Return ONLY valid JSON. No additional text or explanation."; nl;
    "        "
  ].

End PromptParts.

(** The total of the pauses among some events, in seconds. *)
Fixpoint seconds_slept (evs : list event) : Z :=
  match evs with
  | [] => 0%Z
  | Sleep s :: r => (s + seconds_slept r)%Z
  | _ :: r => seconds_slept r
  end.

(** * Properties *)

(** ** Strings *)

Section StringFacts.
Import PyStr.

Lemma prefix_app_l (p q s : string) :
  String.prefix (p ++ q) s = true -> String.prefix p s = true.
Proof.
  revert s; induction p as [|a p IH]; intros s H.
  - destruct s; reflexivity.
  - destruct s as [|b s]; simpl in *; [discriminate|].
    destruct (ascii_dec a b); [now apply IH | discriminate].
Qed.

Lemma prefix_app_same (p s : string) : String.prefix p (p ++ s) = true.
Proof.
  induction p as [|a p IH]; simpl.
  - destruct s; reflexivity.
  - destruct (ascii_dec a a); [exact IH | congruence].
Qed.

(** A text that starts with the long fence starts with the short one. *)
Lemma startswith_json_fence (s : string) :
  startswith s "```json" = true -> startswith s "```" = true.
Proof.
  unfold startswith; intros H.
  apply (prefix_app_l "```" "json" s); exact H.
Qed.

Lemma no_fence_no_json_fence (s : string) :
  startswith s "```" = false -> startswith s "```json" = false.
Proof.
  intros H; destruct (startswith s "```json") eqn:E; [|reflexivity].
  apply startswith_json_fence in E; congruence.
Qed.

Lemma length_keep (n : nat) (s : string) :
  String.length (keep n s) = Nat.min n (String.length s).
Proof.
  revert s; induction n as [|n IH]; intros [|c s]; simpl; try reflexivity.
  now rewrite IH.
Qed.

Lemma length_skip (n : nat) (s : string) :
  String.length (skip n s) = String.length s - n.
Proof.
  revert s; induction n as [|n IH]; intros [|c s]; simpl; try reflexivity.
  apply IH.
Qed.

(** The slice [s[a:-b]] has lost [a + b] characters (all of them when the
    text is shorter). *)
Lemma length_slice (a b : nat) (s : string) :
  String.length (slice a b s) = String.length s - b - a.
Proof.
  unfold slice; rewrite length_skip, length_keep; lia.
Qed.

Lemma length_append (s1 s2 : string) :
  String.length (s1 ++ s2) = String.length s1 + String.length s2.
Proof. induction s1; simpl; congruence. Qed.

Lemma keep_app (p s : string) : keep (String.length p) (p ++ s) = p.
Proof. induction p; simpl; [destruct s; reflexivity | congruence]. Qed.

Lemma skip_app (p s : string) : skip (String.length p) (p ++ s) = s.
Proof. induction p; simpl; [reflexivity | assumption]. Qed.

Lemma append_assoc (a b c : string) : ((a ++ b) ++ c = a ++ (b ++ c))%string.
Proof. induction a; simpl; congruence. Qed.

Lemma append_empty_r (a : string) : (a ++ EmptyString)%string = a.
Proof. induction a; simpl; congruence. Qed.

(** The slice removes exactly a head of [a] characters and a tail of [b]. *)
Lemma slice_app (p m q : string) :
  slice (String.length p) (String.length q) (p ++ m ++ q) = m.
Proof.
  unfold slice.
  replace (String.length (p ++ m ++ q) - String.length q)
    with (String.length (p ++ m)%string)
    by (rewrite !length_append; lia).
  rewrite <- append_assoc, keep_app.
  apply skip_app.
Qed.

Lemma rstrip_nonempty_kept (s : string) :
  rstrip s <> EmptyString -> forall c, rstrip (String c s) = String c (rstrip s).
Proof. intros H c; simpl; destruct (rstrip s); [congruence | reflexivity]. Qed.

(** [rstrip] looks at the tail only when the tail keeps something. *)
Lemma rstrip_app (a b : string) :
  rstrip b <> EmptyString -> rstrip (a ++ b) = (a ++ rstrip b)%string.
Proof.
  intros H; induction a as [|c a IH]; simpl; [reflexivity|].
  rewrite IH.
  destruct (a ++ rstrip b)%string eqn:E; [|reflexivity].
  destruct a; simpl in E; [congruence | discriminate].
Qed.

Lemma rstrip_spaces (a b : string) :
  rstrip b = EmptyString -> rstrip (a ++ b) = rstrip a.
Proof.
  intros H; induction a as [|c a IH]; simpl; [exact H|].
  now rewrite IH.
Qed.

Lemma lstrip_app (a b : string) :
  lstrip a <> EmptyString -> lstrip (a ++ b) = (lstrip a ++ b)%string.
Proof.
  induction a as [|c a IH]; simpl; intros H; [congruence|].
  destruct (isspace c); [now apply IH | reflexivity].
Qed.

Lemma lstrip_all_spaces (a b : string) :
  lstrip a = EmptyString -> lstrip (a ++ b) = lstrip b.
Proof.
  induction a as [|c a IH]; simpl; intros H; [reflexivity|].
  destruct (isspace c); [now apply IH | discriminate].
Qed.

(** Surrounding line breaks do not survive [strip]. *)
Lemma strip_between_newlines (body : string) :
  strip (nl ++ body ++ nl) = strip body.
Proof.
  unfold strip.
  change (lstrip (nl ++ body ++ nl)) with (lstrip (body ++ nl)).
  destruct (lstrip body) eqn:E.
  - rewrite lstrip_all_spaces by exact E. reflexivity.
  - rewrite lstrip_app by congruence.
    rewrite E. apply rstrip_spaces. reflexivity.
Qed.

End StringFacts.

(** ** Fence stripping *)

Section Fences.
Import PyStr OceanHazardDetector.

Lemma strip_fences_json (s : string) :
  startswith s "```json" = true -> strip_fences s = strip (slice 7 3 s).
Proof. intros H; unfold strip_fences; now rewrite H. Qed.

Lemma strip_fences_bare (s : string) :
  startswith s "```json" = false -> startswith s "```" = true ->
  strip_fences s = strip (slice 3 3 s).
Proof. intros H1 H2; unfold strip_fences; now rewrite H1, H2. Qed.

Lemma strip_fences_none (s : string) :
  startswith s "```" = false -> strip_fences s = s.
Proof.
  intros H; unfold strip_fences.
  now rewrite (no_fence_no_json_fence s H), H.
Qed.

Lemma strip_json_fence_json (s : string) :
  startswith s "```json" = true -> strip_json_fence s = strip (slice 7 3 s).
Proof. intros H; unfold strip_json_fence; now rewrite H. Qed.

Lemma strip_json_fence_other (s : string) :
  startswith s "```json" = false -> strip_json_fence s = s.
Proof. intros H; unfold strip_json_fence; now rewrite H. Qed.

Lemma strip_fenced_json (body : string) : strip (fenced_json body) = fenced_json body.
Proof.
  unfold strip, fenced_json.
  change (lstrip ("```json" ++ nl ++ body ++ nl ++ "```"))
    with ("```json" ++ nl ++ body ++ nl ++ "```")%string.
  rewrite <- !append_assoc.
  rewrite rstrip_app; [reflexivity | discriminate].
Qed.

Lemma strip_fenced_bare (body : string) : strip (fenced_bare body) = fenced_bare body.
Proof.
  unfold strip, fenced_bare.
  change (lstrip ("```" ++ nl ++ body ++ nl ++ "```"))
    with ("```" ++ nl ++ body ++ nl ++ "```")%string.
  rewrite <- !append_assoc.
  rewrite rstrip_app; [reflexivity | discriminate].
Qed.

(** Lines 97-101 on a [```json]-fenced text: what reaches [json.loads] is
    the body, stripped. *)
Lemma clean_fenced_json (body : string) :
  strip_fences (strip (fenced_json body)) = strip body.
Proof.
  rewrite strip_fenced_json.
  rewrite strip_fences_json by (apply (prefix_app_same "```json")).
  unfold fenced_json.
  change 7 with (String.length "```json").
  change 3 with (String.length "```") at 1.
  rewrite <- (append_assoc nl body), <- (append_assoc (nl ++ body)).
  rewrite (append_assoc nl body nl).
  rewrite slice_app.
  apply strip_between_newlines.
Qed.

Lemma bare_fence_not_json (body : string) :
  startswith (fenced_bare body) "```json" = false.
Proof. reflexivity. Qed.

Lemma clean_fenced_bare (body : string) :
  strip_fences (strip (fenced_bare body)) = strip body.
Proof.
  rewrite strip_fenced_bare.
  rewrite strip_fences_bare;
    [| apply bare_fence_not_json | apply (prefix_app_same "```")].
  unfold fenced_bare.
  change 3 with (String.length "```").
  rewrite <- (append_assoc nl body), <- (append_assoc (nl ++ body)).
  rewrite (append_assoc nl body nl).
  rewrite slice_app.
  apply strip_between_newlines.
Qed.

(** The user-report path (lines 157-159) leaves a bare fence in place. *)
Lemma user_report_keeps_bare_fence (body : string) :
  strip_json_fence (strip (fenced_bare body)) = fenced_bare body.
Proof.
  rewrite strip_fenced_bare.
  apply strip_json_fence_other, bare_fence_not_json.
Qed.

End Fences.

(** ** The hazard scan *)

Arguments Prompt.create_hazard_analysis_prompt : simpl never.
Arguments Prompt.user_report_prompt : simpl never.
Arguments Prompt.batch_posts_prompt : simpl never.

Lemma call_method_bound {A} (name : string) (call : M A) (w : World) :
  OceanHazardDetector.hasattr name = true ->
  OceanHazardDetector.call_method name call w = call w.
Proof.
  intros H; unfold OceanHazardDetector.call_method, OceanHazardDetector.getattr, bind, ret; now rewrite H.
Qed.

(** Enter the body of the scan up to the answer of the model. *)
Ltac enter_scan :=
  unfold OceanHazardDetector.analyze_current_hazards, try_except;
  unfold bind at 1;
  rewrite call_method_bound by reflexivity;
  unfold ret at 1; cbv beta iota;
  unfold bind at 1, generate_content.

Section HazardScan.
Import PyStr OceanHazardDetector.

Variable env : Env.
Variable self : OceanHazardDetector.t.

Lemma call_method_unbound {A} (name : string) (call : M A) (w : World) :
  hasattr name = false ->
  call_method name call w = (Raises (no_attribute name), w).
Proof.
  intros H; unfold call_method, getattr, bind, raise; now rewrite H.
Qed.

Lemma is_empty_true (t : string) : is_empty t = true -> t = EmptyString.
Proof. destruct t; [reflexivity | discriminate]. Qed.

(** The model call raises [e]: line 119 looks [_create_error_response] up
    and fails. *)
Lemma scan_model_raises (location : string) (w : World) (e : exn) :
  hazard_scan_reply env self location w = Failure e ->
  analyze_current_hazards env self location w =
  (Raises (no_attribute "_create_error_response"),
   hazard_failure_world self location [] e w).
Proof.
  unfold hazard_scan_reply; intros H.
  enter_scan.
  rewrite H.
  reflexivity.
Qed.

(** The model returns no text: line 94 fails on the lookup, and so does
    line 119, which handles that failure. *)
Lemma scan_model_empty (location : string) (w : World) :
  hazard_scan_reply env self location w = Text EmptyString ->
  analyze_current_hazards env self location w =
  (Raises (no_attribute "_create_error_response"),
   hazard_failure_world self location
     [LogWarning ("No data returned for " ++ location)]
     (no_attribute "_create_error_response") w).
Proof.
  unfold hazard_scan_reply; intros H.
  enter_scan.
  rewrite H.
  reflexivity.
Qed.

(** The text does not parse: line 115 fails on the lookup, and so does
    line 119. *)
Lemma scan_text_unparseable (location t msg : string) (w : World) :
  hazard_scan_reply env self location w = Text t ->
  is_empty t = false ->
  json_loads env (strip_fences (strip t)) = inr msg ->
  analyze_current_hazards env self location w =
  (Raises (no_attribute "_create_error_response"),
   hazard_failure_world self location
     [LogError ("JSON parse error: " ++ msg ++ nl ++ "Response: "
                ++ strip_fences (strip t))]
     (no_attribute "_create_error_response") w).
Proof.
  unfold hazard_scan_reply; intros H Ht Hj.
  enter_scan.
  rewrite H, Ht.
  unfold try_except_json, bind at 1, loads.
  rewrite Hj.
  reflexivity.
Qed.

(** The text parses as an object: the two assignments of lines 107-108 and
    the return of line 111. *)
Lemma scan_success (location t : string) (d : pydict) (w : World) :
  hazard_scan_reply env self location w = Text t ->
  is_empty t = false ->
  json_loads env (strip_fences (strip t)) = inl (PDict d) ->
  analyze_current_hazards env self location w =
  (Returns
     (PDict (Dict.set "source" (PStr "gemini_web_analysis")
               (Dict.set "processed_at" (PStr (now_iso env (ticks w))) d))),
   add_event (LogInfo ("Successfully analyzed hazards for " ++ location))
     (after_tick (after_call (model self) (hazard_prompt location) None w))).
Proof.
  unfold hazard_scan_reply; intros H Ht Hj.
  enter_scan.
  rewrite H, Ht.
  unfold try_except_json, bind at 1, loads.
  rewrite Hj.
  reflexivity.
Qed.

End HazardScan.

(** ** Dictionaries *)

Section DictFacts.

Lemma get_set_same (k : string) (v : pyval) (d : pydict) :
  Dict.get k (Dict.set k v d) = Some v.
Proof.
  induction d as [|[k' v'] d IH]; simpl.
  - now rewrite String.eqb_refl.
  - destruct (String.eqb k k') eqn:E; simpl.
    + now rewrite String.eqb_refl.
    + now rewrite E.
Qed.

Lemma get_set_other (k k' : string) (v : pyval) (d : pydict) :
  k <> k' -> Dict.get k (Dict.set k' v d) = Dict.get k d.
Proof.
  intros Hne; induction d as [|[k0 v0] d IH]; simpl.
  - destruct (String.eqb k k') eqn:E; [|reflexivity].
    apply String.eqb_eq in E; contradiction.
  - destruct (String.eqb k' k0) eqn:E; simpl.
    + apply String.eqb_eq in E; subst k0.
      destruct (String.eqb k k') eqn:E'; [|reflexivity].
      apply String.eqb_eq in E'; contradiction.
    + now rewrite IH.
Qed.

(** A key of the updated dict is the new key or an old one. *)
Lemma keys_set (k : string) (v : pyval) (d : pydict) (x : string) :
  In x (Dict.keys (Dict.set k v d)) <-> x = k \/ In x (Dict.keys d).
Proof.
  unfold Dict.keys; induction d as [|[k' v'] d IH]; simpl.
  - intuition.
  - destruct (String.eqb k k') eqn:E; simpl.
    + apply String.eqb_eq in E; subst k'. intuition.
    + rewrite IH. intuition.
Qed.

Lemma NoDup_keys_set (k : string) (v : pyval) (d : pydict) :
  NoDup (Dict.keys d) -> NoDup (Dict.keys (Dict.set k v d)).
Proof.
  unfold Dict.keys; induction d as [|[k' v'] d IH]; simpl; intros H.
  - constructor; [intros [] | constructor].
  - inversion H as [|? ? Hnotin Hnd]; subst.
    destruct (String.eqb k k') eqn:E; simpl.
    + apply String.eqb_eq in E; subst k'. now constructor.
    + constructor; [|now apply IH].
      intros Hin. apply (keys_set k v d k') in Hin.
      destruct Hin as [->|Hin]; [|contradiction].
      now rewrite String.eqb_refl in E.
Qed.

End DictFacts.

(** ** The hazard scan: the claims *)

Section HazardScanClaims.
Import PyStr OceanHazardDetector.

(** The body of the nested function of lines 220-230 builds the
    ErrorResponse shape for the location and the code it is given. *)
Lemma create_error_response_shape (env : Env) (location error : string)
    (w : World) :
  exists r, _create_error_response env location error w = (Returns r, after_tick w)
            /\ is_error_response location error r = true.
Proof.
  eexists; split; [reflexivity|].
  simpl. now rewrite !String.eqb_refl.
Qed.

(** No instance has that function as an attribute. *)
Lemma create_error_response_unbound : hasattr "_create_error_response" = false.
Proof. reflexivity. Qed.

(** C3: [analyze_current_hazards] is to map empty model text to the
    ErrorResponse with code [no_data], unparseable text to the one with code
    [json_parse_error] and any other exception to the one carrying its text.
    On the code, in each of the three failure modes the call does not return:
    the lookup of [self._create_error_response] raises an [AttributeError],
    the handler of line 117 catches it and fails on the same lookup, and
    that [AttributeError] reaches the caller. *)
Theorem scan_failure_modes_raise (env : Env) (self : OceanHazardDetector.t)
    (location : string) (w : World) :
  hazard_scan_reply env self location w = Text EmptyString
  \/ (exists t msg, hazard_scan_reply env self location w = Text t
                    /\ is_empty t = false
                    /\ json_loads env (strip_fences (strip t)) = inr msg)
  \/ (exists e, hazard_scan_reply env self location w = Failure e) ->
  fst (analyze_current_hazards env self location w)
  = Raises (no_attribute "_create_error_response").
Proof.
  intros [H | [(t & msg & H & Ht & Hj) | (e & H)]].
  - now rewrite (scan_model_empty env self location w H).
  - now rewrite (scan_text_unparseable env self location w H Ht Hj).
  - now rewrite (scan_model_raises env self location w H).
Qed.

Lemma scan_failure_modes_raise_witness :
  fst (analyze_current_hazards (Examples.answering (Text EmptyString) [])
         Examples.a_detector "Malibu" world0)
  = Raises (no_attribute "_create_error_response").
Proof.
  apply scan_failure_modes_raise.
  left. reflexivity.
Defined.

(** A parsed value that is not an object: the assignment of line 107
    raises a [TypeError], line 117 catches it, and line 119 fails on the
    lookup. *)
Lemma scan_value_not_object (env : Env) (self : OceanHazardDetector.t)
    (location t : string) (v : pyval) (w : World) :
  hazard_scan_reply env self location w = Text t ->
  is_empty t = false ->
  json_loads env (strip_fences (strip t)) = inl v ->
  (forall d, v <> PDict d) ->
  fst (analyze_current_hazards env self location w)
  = Raises (no_attribute "_create_error_response").
Proof.
  unfold hazard_scan_reply; intros H Ht Hj Hv.
  enter_scan.
  rewrite H, Ht.
  unfold try_except_json, bind at 1, loads.
  rewrite Hj.
  destruct v; try reflexivity.
  now destruct (Hv d).
Qed.

(** The user-report path: whatever the model and the decoder do, the call
    returns, either the parsed object with [processed_at] set or the
    fallback pair. *)
Lemma user_report_returns (env : Env) (self : OceanHazardDetector.t)
    (report_text location : string) (image_data : option string) (w : World) :
  exists r w',
    analyze_user_report env self report_text location image_data w
    = (Returns r, w')
    /\ ((exists e, r = error_pair e)
        \/ (exists d, r = PDict d /\ Dict.get "processed_at" d <> None)).
Proof.
  unfold analyze_user_report, try_except, bind at 1.
  assert (Hgen : exists o w1,
    (if truthy image_data
     then generate_content env (vision_model self)
            (Prompt.user_report_prompt report_text location) image_data
     else generate_content env (model self)
            (Prompt.user_report_prompt report_text location) None) w
    = (o, w1)) by (eexists; eexists; apply surjective_pairing).
  destruct Hgen as (o & w1 & Hgen). rewrite Hgen.
  destruct o as [text|e].
  - unfold bind at 1, loads.
    destruct (json_loads env (strip_json_fence (strip text))) as [v|msg].
    + destruct v;
        try (eexists; eexists; split; [reflexivity | left; eexists; reflexivity]).
      eexists; eexists; split; [reflexivity|].
      right; eexists; split; [reflexivity|].
      simpl. rewrite get_set_same. discriminate.
    + eexists; eexists; split; [reflexivity | left; eexists; reflexivity].
  - eexists; eexists; split; [reflexivity | left; eexists; reflexivity].
Qed.

(** C4: neither [analyze_current_hazards] nor [analyze_user_report] is to
    raise to its caller. On the code, [analyze_user_report] always returns
    (the parsed object or the [{error, is_hazard: false}] pair), but
    [analyze_current_hazards] raises an [AttributeError] whenever the model
    call raises: the handler of line 117 calls a method the class does not
    have. *)
Theorem user_report_returns_hazard_scan_raises :
  (forall env self report_text location image_data w,
      exists r w',
        analyze_user_report env self report_text location image_data w
        = (Returns r, w'))
  /\
  (forall env self location w e,
      hazard_scan_reply env self location w = Failure e ->
      exists w',
        analyze_current_hazards env self location w
        = (Raises (no_attribute "_create_error_response"), w')).
Proof.
  split.
  - intros env self report_text location image_data w.
    destruct (user_report_returns env self report_text location image_data w)
      as (r & w' & H & _).
    now exists r, w'.
  - intros env self location w e H.
    eexists. apply (scan_model_raises env self location w H).
Qed.

Lemma user_report_returns_hazard_scan_raises_witness :
  exists w',
    analyze_current_hazards
      (Examples.answering (Failure Examples.a_network_error) [])
      Examples.a_detector "Malibu" world0
    = (Raises (no_attribute "_create_error_response"), w').
Proof.
  apply (proj2 user_report_returns_hazard_scan_raises
           (Examples.answering (Failure Examples.a_network_error) [])
           Examples.a_detector "Malibu" world0 Examples.a_network_error).
  reflexivity.
Defined.

(** C1, refuted as stated: the model answers
    [{"overall_risk_level": "SEVERE"}]; the scan of ["Malibu"] returns that
    object with the two metadata fields, which has no [location], a risk
    level outside the five and no [hazards]. *)
Lemma scan_returns_what_the_model_wrote :
  ~ (exists r w',
        analyze_current_hazards
          (Examples.answering (Text Examples.text_severe)
             [(Examples.text_severe, Examples.value_severe)])
          Examples.a_detector "Malibu" world0
        = (Returns r, w')
        /\ has_report_fields "Malibu" r = true).
Proof.
  intros (r & w' & H & Hr).
  vm_compute in H.
  injection H as <- _.
  vm_compute in Hr. discriminate.
Qed.

(** C1, amended: when the model returns non-empty text that parses, after
    fence stripping, as an object, [analyze_current_hazards(L)] returns an
    object whose [location], [overall_risk_level] and [hazards] are those of
    the model's object; so it has location [L], a risk level among the five
    and a [hazards] field exactly when the model's object has. *)
Theorem scan_report_fields_are_the_models (env : Env)
    (self : OceanHazardDetector.t) (location t : string) (d : pydict)
    (w : World) :
  hazard_scan_reply env self location w = Text t ->
  is_empty t = false ->
  json_loads env (strip_fences (strip t)) = inl (PDict d) ->
  exists r w',
    analyze_current_hazards env self location w = (Returns (PDict r), w')
    /\ Dict.get "location" r = Dict.get "location" d
    /\ Dict.get "overall_risk_level" r = Dict.get "overall_risk_level" d
    /\ Dict.get "hazards" r = Dict.get "hazards" d
    /\ has_report_fields location (PDict r)
       = has_report_fields location (PDict d).
Proof.
  intros H Ht Hj.
  eexists; eexists; split;
    [apply (scan_success env self location w H Ht Hj)|].
  assert (Hget : forall k, k <> "processed_at" -> k <> "source" ->
    Dict.get k (Dict.set "source" (PStr "gemini_web_analysis")
                  (Dict.set "processed_at" (PStr (now_iso env (ticks w))) d))
    = Dict.get k d)
    by (intros k H1 H2; now rewrite !get_set_other).
  assert (Hl := Hget "location"). assert (Hr := Hget "overall_risk_level").
  assert (Hh := Hget "hazards").
  unfold has_report_fields.
  rewrite Hl, Hr, Hh by discriminate.
  repeat split; reflexivity.
Qed.

Lemma scan_report_fields_are_the_models_witness :
  exists r w',
    analyze_current_hazards
      (Examples.answering (Text Examples.text_report)
         [(Examples.text_report, Examples.value_report)])
      Examples.a_detector "Malibu" world0
    = (Returns (PDict r), w')
    /\ has_report_fields "Malibu" (PDict r) = true.
Proof.
  destruct (@scan_report_fields_are_the_models
              (Examples.answering (Text Examples.text_report)
                 [(Examples.text_report, Examples.value_report)])
              Examples.a_detector "Malibu" Examples.text_report
              [("location", PStr "Malibu"); ("overall_risk_level", PStr "LOW");
               ("hazards", PList [])]
              world0 eq_refl eq_refl eq_refl)
    as (r & w' & H & _ & _ & _ & Hf).
  exists r, w'. split; [exact H | rewrite Hf; reflexivity].
Defined.

(** C6: on the success path, when the model's text (wrapped in a [```json]
    fence or not) parses as an object, [analyze_current_hazards] returns
    that object with [processed_at] set to the time of processing and
    [source] set to [gemini_web_analysis], every other field as parsed. *)
Theorem scan_success_adds_two_fields (env : Env)
    (self : OceanHazardDetector.t) (location t : string) (d : pydict)
    (w : World) :
  hazard_scan_reply env self location w = Text t ->
  is_empty t = false ->
  json_loads env (strip_fences (strip t)) = inl (PDict d) ->
  exists r w',
    analyze_current_hazards env self location w = (Returns (PDict r), w')
    /\ r = Dict.set "source" (PStr "gemini_web_analysis")
             (Dict.set "processed_at" (PStr (now_iso env (ticks w))) d)
    /\ Dict.get "processed_at" r = Some (PStr (now_iso env (ticks w)))
    /\ Dict.get "source" r = Some (PStr "gemini_web_analysis")
    /\ (forall k, k <> "processed_at" -> k <> "source" ->
                  Dict.get k r = Dict.get k d)
    /\ (forall k, In k (Dict.keys r) <->
                  k = "processed_at" \/ k = "source" \/ In k (Dict.keys d)).
Proof.
  intros H Ht Hj.
  eexists; eexists; split;
    [apply (scan_success env self location w H Ht Hj)|].
  split; [reflexivity|].
  split; [rewrite get_set_other by discriminate; apply get_set_same|].
  split; [apply get_set_same|].
  split.
  - intros k H1 H2. now rewrite !get_set_other.
  - intros k. rewrite !keys_set. tauto.
Qed.

(** The scenario of the specification: a [```json]-fenced object. *)
Lemma scan_success_adds_two_fields_witness :
  exists w',
    analyze_current_hazards
      (Examples.answering (Text (fenced_json Examples.text_report))
         [(Examples.text_report, Examples.value_report)])
      Examples.a_detector "Malibu" world0
    = (Returns
         (PDict [("location", PStr "Malibu"); ("overall_risk_level", PStr "LOW");
                 ("hazards", PList []); ("processed_at", PStr "T0");
                 ("source", PStr "gemini_web_analysis")]), w').
Proof.
  destruct (@scan_success_adds_two_fields
              (Examples.answering (Text (fenced_json Examples.text_report))
                 [(Examples.text_report, Examples.value_report)])
              Examples.a_detector "Malibu" (fenced_json Examples.text_report)
              [("location", PStr "Malibu"); ("overall_risk_level", PStr "LOW");
               ("hazards", PList [])]
              world0 eq_refl eq_refl eq_refl)
    as (r & w' & H & Hr & _).
  exists w'. rewrite H, Hr. reflexivity.
Defined.


End HazardScanClaims.

(** ** Fence stripping: the claims *)

Section FenceClaims.
Import PyStr OceanHazardDetector.

(** C8: on a response text that does not start with a fence marker the
    fence-stripping step (lines 98-101, and 158-159 in the user-report
    path) changes nothing; it is idempotent there, and the decoder is given
    the same text whether the step runs or not. *)
Theorem fence_stripping_keeps_clean_text (env : Env) (s : string) :
  startswith s "```" = false ->
  strip_fences s = s
  /\ strip_json_fence s = s
  /\ strip_fences (strip_fences s) = strip_fences s
  /\ json_loads env (strip_fences s) = json_loads env s.
Proof.
  intros H.
  assert (E : strip_fences s = s) by now apply strip_fences_none.
  split; [exact E|].
  split; [apply strip_json_fence_other, no_fence_no_json_fence, H|].
  now rewrite !E.
Qed.

Lemma fence_stripping_keeps_clean_text_witness :
  strip_fences Examples.text_report = Examples.text_report
  /\ strip_json_fence Examples.text_report = Examples.text_report
  /\ strip_fences (strip_fences Examples.text_report)
     = strip_fences Examples.text_report
  /\ Examples.decoder [] (strip_fences Examples.text_report)
     = Examples.decoder [] Examples.text_report.
Proof.
  apply (@fence_stripping_keeps_clean_text
           (Examples.answering (Text Examples.text_report) [])
           Examples.text_report).
  reflexivity.
Defined.

(** The two paths that handle both fences remove 7 and 3 characters, or 3
    and 3, from a text long enough to hold them. *)
Lemma strip_fences_lengths (s : string) :
  (startswith s "```json" = true ->
   strip_fences s = strip (slice 7 3 s)
   /\ String.length (slice 7 3 s) = String.length s - 10)
  /\ (startswith s "```json" = false -> startswith s "```" = true ->
      strip_fences s = strip (slice 3 3 s)
      /\ String.length (slice 3 3 s) = String.length s - 6).
Proof.
  split.
  - intros H; split; [now apply strip_fences_json|].
    rewrite length_slice; lia.
  - intros H1 H2; split; [now apply strip_fences_bare|].
    rewrite length_slice; lia.
Qed.

Lemma user_report_call (env : Env) (self : OceanHazardDetector.t)
    (report_text location : string) (image_data : option string) (w : World) :
  exists w1,
    (if truthy image_data
     then generate_content env (vision_model self)
            (Prompt.user_report_prompt report_text location) image_data
     else generate_content env (model self)
            (Prompt.user_report_prompt report_text location) None) w
    = (match user_report_reply env self report_text location image_data w with
       | Text t => Returns t
       | Failure e => Raises e
       end, w1).
Proof.
  unfold user_report_reply, generate_content.
  destruct (truthy image_data).
  - destruct (model_reply env (api_key_cfg w) (vision_model self)
                (Prompt.user_report_prompt report_text location) image_data
                (calls w)); eexists; reflexivity.
  - destruct (model_reply env (api_key_cfg w) (model self)
                (Prompt.user_report_prompt report_text location) None
                (calls w)); eexists; reflexivity.
Qed.

(** C5: every normalization path is to strip both fence variants. On the
    code, the user-report path tests for [```json] only (lines 158-159; the
    hazard-scan and batch paths have the [elif] of lines 100-101 and
    211-212): a reply wrapped in a bare fence goes to [json.loads] with both
    fences in place, and when the decoder refuses it the caller gets the
    fallback pair; the other two paths hand the decoder the body. *)
Theorem user_report_keeps_bare_fences (env : Env)
    (self : OceanHazardDetector.t) (report_text location : string)
    (image_data : option string) (w : World) (body msg : string) :
  user_report_reply env self report_text location image_data w
  = Text (fenced_bare body) ->
  json_loads env (fenced_bare body) = inr msg ->
  strip_json_fence (strip (fenced_bare body)) = fenced_bare body
  /\ strip_fences (strip (fenced_bare body)) = strip body
  /\ fst (analyze_user_report env self report_text location image_data w)
     = Returns (error_pair (Exn JSONDecodeError msg)).
Proof.
  intros H Hj.
  split; [apply user_report_keeps_bare_fence|].
  split; [apply clean_fenced_bare|].
  unfold analyze_user_report, try_except, bind at 1.
  destruct (user_report_call env self report_text location image_data w)
    as (w1 & Hc).
  rewrite Hc, H.
  unfold bind at 1, loads.
  rewrite user_report_keeps_bare_fence, Hj.
  reflexivity.
Qed.

Lemma user_report_keeps_bare_fences_witness :
  fst (analyze_user_report
         (Examples.answering (Text (fenced_bare Examples.text_is_hazard))
            [(Examples.text_is_hazard, Examples.value_is_hazard)])
         Examples.a_detector "I saw a large shark" "Malibu" None world0)
  = Returns (error_pair
               (Exn JSONDecodeError "Expecting value: line 1 column 1 (char 0)")).
Proof.
  apply (@user_report_keeps_bare_fences
           (Examples.answering (Text (fenced_bare Examples.text_is_hazard))
              [(Examples.text_is_hazard, Examples.value_is_hazard)])
           Examples.a_detector "I saw a large shark" "Malibu" None world0
           Examples.text_is_hazard
           "Expecting value: line 1 column 1 (char 0)");
    reflexivity.
Defined.

(** The same reply on the batch path is decoded. *)
Example batch_path_strips_bare_fence :
  fst (analyze_batch_social_posts
         (Examples.answering (Text (fenced_bare Examples.text_is_hazard))
            [(Examples.text_is_hazard, Examples.value_is_hazard)])
         Examples.a_detector ["Huge waves"] "Malibu" world0)
  = Returns Examples.value_is_hazard.
Proof. reflexivity. Qed.

End FenceClaims.

(** ** The constructor *)

Section Constructor.
Import OceanHazardDetector.

(** C10: constructing the detector behaves the same for every two
    [api_key] arguments: the client is configured with the literal
    ["API_KEY"], the parameter is never read, every later model call is
    made under that configured value, and the startup of lines 305-310
    configures the same client for any two credentials it finds. *)
Theorem init_ignores_api_key (k1 k2 : string) (w : World) :
  __init__ k1 w = __init__ k2 w
  /\ (exists self w',
         __init__ k1 w = (Returns self, w')
         /\ api_key_cfg w' = Some "API_KEY"
         /\ trace w' = trace w ++ [Configure "API_KEY"]
         /\ forall env m prompt image,
              fst (generate_content env m prompt image w')
              = match model_reply env (Some "API_KEY") m prompt image (calls w)
                with
                | Text t => Returns t
                | Failure e => Raises e
                end)
  /\ (forall c1 c2,
         startup (Some (String c1 k1)) w = startup (Some (String c2 k2)) w).
Proof.
  split; [reflexivity|].
  split; [|reflexivity].
  eexists; eexists; split; [reflexivity|].
  split; [reflexivity|].
  split; [reflexivity|].
  intros env m prompt image.
  unfold generate_content; simpl.
  destruct (model_reply env (Some "API_KEY") m prompt image (calls w));
    reflexivity.
Qed.

(** Without a credential the startup refuses to go on (line 308). *)
Example startup_without_credential :
  fst (startup None world0)
  = Raises (Exn (OtherException "ValueError")
              "GEMINI_API_KEY not found in .env file")
  /\ fst (startup (Some EmptyString) world0) = fst (startup None world0).
Proof. split; reflexivity. Qed.

End Constructor.

(** ** The aggregator and the monitor *)

Section Aggregator.
Import OceanHazardDetector.

Lemma gather_returns {A} (tasks : list (M A)) (w : World) :
  exists os w', Py.gather tasks w = (Returns os, w')
                /\ length os = length tasks.
Proof.
  revert w; induction tasks as [|t r IH]; intros w; simpl.
  - exists [], w. split; reflexivity.
  - destruct (t w) as [o w1].
    destruct (IH w1) as (os & w2 & H & Hlen).
    rewrite H. exists (o :: os), w2. split; [reflexivity | simpl; congruence].
Qed.

Lemma keys_fold_set (l : list (string * pyval)) (acc : pydict) (x : string) :
  In x (Dict.keys (fold_left (fun d kv => Dict.set (fst kv) (snd kv) d) l acc))
  <-> In x (Dict.keys acc) \/ In x (map fst l).
Proof.
  revert acc; induction l as [|[k v] l IH]; intros acc; simpl.
  - tauto.
  - rewrite IH, keys_set. simpl. intuition.
Qed.

Lemma NoDup_fold_set (l : list (string * pyval)) (acc : pydict) :
  NoDup (Dict.keys acc) ->
  NoDup (Dict.keys (fold_left (fun d kv => Dict.set (fst kv) (snd kv) d) l acc)).
Proof.
  revert acc; induction l as [|[k v] l IH]; intros acc H; simpl.
  - exact H.
  - apply IH. now apply NoDup_keys_set.
Qed.

(** A value of the built dict was put there by one of the pairs. *)
Lemma get_fold_set (l : list (string * pyval)) (acc : pydict) (k : string)
    (v : pyval) :
  Dict.get k (fold_left (fun d kv => Dict.set (fst kv) (snd kv) d) l acc)
  = Some v ->
  Dict.get k acc = Some v \/ In (k, v) l.
Proof.
  revert acc; induction l as [|[k' v'] l IH]; intros acc; simpl.
  - now left.
  - intros H. apply IH in H. destruct H as [H|H]; [|now right; right].
    destruct (String.eqb k k') eqn:E.
    + apply String.eqb_eq in E; subst k'.
      rewrite get_set_same in H. injection H as ->. right; now left.
    + rewrite get_set_other in H; [now left|].
      intros ->. now rewrite String.eqb_refl in E.
Qed.

Lemma map_fst_combine {A B C} (f : A * B -> C) (la : list A) (lb : list B) :
  length lb = length la ->
  map fst (map (fun ab => (fst ab, f ab)) (combine la lb)) = la.
Proof.
  revert lb; induction la as [|a la IH]; intros [|b lb] H; simpl in *;
    try discriminate; [reflexivity|].
  f_equal. apply IH. congruence.
Qed.

(** The body of the nested function of lines 232-245, had it been called:
    it returns, the keys of the
    [locations] mapping are the input locations, each once, and each value
    is the result of a scan or an [{"error": ...}] object. *)
Lemma aggregator_body (env : Env) (self : OceanHazardDetector.t)
    (locations : list string) (w : World) :
  exists now per w',
    get_multi_location_analysis env self locations w
    = (Returns (PDict [("analysis_time", PStr now); ("locations", PDict per)]),
       w')
    /\ NoDup (Dict.keys per)
    /\ (forall k, In k (Dict.keys per) <-> In k locations)
    /\ (forall k v, Dict.get k per = Some v ->
          exists o, v = result_or_error o
                    /\ (forall e, o = Raises e ->
                          v = PDict [("error", PStr (exn_str e))])).
Proof.
  unfold get_multi_location_analysis, bind at 1.
  destruct (gather_returns (map (analyze_current_hazards env self) locations) w)
    as (os & w1 & Hg & Hlen).
  rewrite Hg. rewrite length_map in Hlen.
  eexists; eexists; eexists; split; [reflexivity|].
  unfold Dict.of_pairs.
  split; [apply NoDup_fold_set; constructor|].
  split.
  - intros k. rewrite keys_fold_set, map_fst_combine by exact Hlen.
    simpl; tauto.
  - intros k v H. apply get_fold_set in H.
    destruct H as [H|H]; [discriminate|].
    apply in_map_iff in H. destruct H as ([l o] & Heq & _).
    injection Heq as _ <-. exists o. split; [reflexivity|].
    intros e ->. reflexivity.
Qed.

(** No instance has the aggregator as an attribute either. *)
Lemma aggregator_unbound : hasattr "get_multi_location_analysis" = false.
Proof. reflexivity. Qed.

(** C2: [get_multi_location_analysis] is to return one entry per location
    and never raise. On the code, the function is a local of
    [analyze_batch_social_posts] that is never defined at run time: the
    calls of lines 259 and 359, [detector.get_multi_location_analysis(...)],
    raise an [AttributeError] before any location is scanned. *)
Theorem aggregator_call_raises (env : Env) (self : OceanHazardDetector.t)
    (locations : list string) (w : World) :
  call_method "get_multi_location_analysis"
    (get_multi_location_analysis env self locations) w
  = (Raises (no_attribute "get_multi_location_analysis"), w).
Proof. apply call_method_unbound, aggregator_unbound. Qed.

End Aggregator.

Section Monitor.
Import OceanHazardDetector HazardMonitoringService.

Lemma after_events_app (a b : list event) (w : World) :
  after_events (a ++ b) w = after_events b (after_events a w).
Proof. apply fold_left_app. Qed.

(** One turn of the loop: the lookup of the aggregator fails, the handler
    of line 269 logs it and pauses 60 seconds. *)
Lemma cycle_fails_and_pauses (env : Env) (self : HazardMonitoringService.t)
    (locations : list string) (interval_minutes : Z) (w : World) :
  monitoring_cycle env self locations interval_minutes w
  = (Returns tt, after_events (failed_cycle_events locations) w).
Proof. reflexivity. Qed.

(** What [send_alert] prints first is an alert. *)
Example send_alert_emits_alert :
  trace (snd (send_alert "Malibu" Examples.value_high world0))
  = [Print [Lit alert_glyph; Lit " HIGH RISK ALERT for "; Lit "Malibu"; Lit ":"];
     Print [Lit "Risk Level: "; Fmt (PStr "HIGH")]]
  /\ existsb is_alert (trace (snd (send_alert "Malibu" Examples.value_high world0)))
     = true.
Proof. split; reflexivity. Qed.


Lemma no_alert_in_failed_cycles (locations : list string) (n : nat) :
  existsb is_alert (concat (repeat (failed_cycle_events locations) n)) = false.
Proof. induction n as [|n IH]; simpl; [reflexivity | exact IH]. Qed.

(** C7: each turn of [continuous_monitoring] is to alert exactly the
    locations whose result is HIGH or EXTREME. On the code, the loop never
    ends and every failed turn is logged and followed by a 60-second pause,
    as claimed, but every turn fails: line 259 raises an [AttributeError]
    (the aggregator is not a method of the detector), so no location is
    scanned and no alert is ever sent, whatever the model would answer. *)
Theorem monitor_never_alerts (turns : nat) (env : Env)
    (self : HazardMonitoringService.t) (locations : list string)
    (interval_minutes : Z) (w : World) :
  continuous_monitoring turns env self locations interval_minutes w
  = (StillRunning,
     after_events (concat (repeat (failed_cycle_events locations) turns)) w)
  /\ existsb is_alert (concat (repeat (failed_cycle_events locations) turns))
     = false.
Proof.
  split; [|apply no_alert_in_failed_cycles].
  revert w; induction turns as [|n IH]; intros w.
  - reflexivity.
  - cbn [continuous_monitoring repeat concat].
    rewrite cycle_fails_and_pauses, after_events_app.
    apply IH.
Qed.

(** With a model that reports a HIGH risk for every location, two turns of
    the monitor: two announcements, two logged errors, two pauses, no model
    call and no alert. *)
Example monitor_high_risk_two_turns :
  continuous_monitoring 2
    (Examples.answering (Text Examples.text_high)
       [(Examples.text_high, Examples.value_high)])
    Examples.a_service ["Santa Monica"] 30 world0
  = (StillRunning,
     mkWorld None 0 0
       (failed_cycle_events ["Santa Monica"]
        ++ failed_cycle_events ["Santa Monica"])).
Proof. reflexivity. Qed.

End Monitor.

(** ** The batch analysis *)

Section Batch.
Import PyStr OceanHazardDetector.

Lemma batch_success (env : Env) (self : OceanHazardDetector.t)
    (posts : list string) (location t : string) (v : pyval) (w : World) :
  batch_reply env self posts location w = Text t ->
  json_loads env (strip_fences (strip t)) = inl v ->
  analyze_batch_social_posts env self posts location w
  = (Returns v,
     after_call (model self)
       (Prompt.batch_posts_prompt (Prompt.posts_text posts) location
          (length posts)) None w).
Proof.
  unfold batch_reply; intros H Hj.
  unfold analyze_batch_social_posts, try_except, bind, generate_content.
  rewrite H. unfold loads. rewrite Hj. reflexivity.
Qed.

(** The batch analysis returns on every input: the parsed value, or an
    object with an [error] key. *)
Lemma batch_returns (env : Env) (self : OceanHazardDetector.t)
    (posts : list string) (location : string) (w : World) :
  exists r w',
    analyze_batch_social_posts env self posts location w = (Returns r, w').
Proof.
  unfold analyze_batch_social_posts, try_except, bind, generate_content.
  destruct (model_reply env (api_key_cfg w) (model self)
              (Prompt.batch_posts_prompt (Prompt.posts_text posts) location
                 (length posts)) None (calls w)) as [t|e].
  - unfold loads.
    destruct (json_loads env (strip_fences (strip t)));
      eexists; eexists; reflexivity.
  - eexists; eexists; reflexivity.
Qed.

(** With no posts, the prompt has an empty posts section and asks for a
    count of 0 (line 190). *)
Lemma prompt_of_no_posts (location : string) :
  Prompt.posts_text [] = EmptyString
  /\ asks_for_zero_posts
       (Prompt.batch_posts_prompt (Prompt.posts_text []) location
          (length (@nil string))).
Proof.
  split; [reflexivity|].
  unfold asks_for_zero_posts.
  eexists (cat [nl;
    "        Analyze these social media posts about ocean conditions near ";
    location; ":"; nl; "        "; nl; "        "; nl; "        "; nl;
    "        For each post that mentions a potential ocean hazard:"; nl;
    "        1. Extract relevant safety information"; nl;
    "        2. Assess credibility "; nl;
    "        3. Determine if it requires attention"; nl;
    "        "; nl; "        Return JSON:"; nl; "        {"; nl;
    "            "; dq; "location"; dq; ": "; dq; location; dq; ","; nl;
    "            "]).
  eexists.
  unfold Prompt.batch_posts_prompt, Prompt.posts_text, cat.
  cbn [String.concat Prompt.numbered join length of_nat].
  rewrite !append_assoc.
  cbn [append].
  repeat (f_equal; []).
  reflexivity.
Qed.

(** C9, refuted as stated: for no posts, the model answers
    [{"total_posts_analyzed": 4, "hazard_posts": [{"post_number": 1}]}],
    and that is what the call returns. *)
Lemma batch_of_no_posts_returns_four :
  ~ (exists r w',
        analyze_batch_social_posts
          (Examples.answering (Text Examples.text_four_posts)
             [(Examples.text_four_posts, Examples.value_four_posts)])
          Examples.a_detector [] "Los Angeles County Beaches" world0
        = (Returns r, w')
        /\ reports_no_posts r).
Proof.
  intros (r & w' & H & d & -> & Ht & _).
  vm_compute in H.
  injection H as <- _.
  vm_compute in Ht. discriminate.
Qed.

(** C9, amended: called with no posts, [analyze_batch_social_posts] sends
    the model a prompt with an empty posts section whose schema carries
    [total_posts_analyzed: 0], and returns the value the model's reply
    parses to, unchanged: [total_posts_analyzed] is 0 and [hazard_posts] is
    empty in the result exactly when they are so in the reply. *)
Theorem batch_of_no_posts_returns_the_reply (env : Env)
    (self : OceanHazardDetector.t) (location t : string) (v : pyval)
    (w : World) :
  batch_reply env self [] location w = Text t ->
  json_loads env (strip_fences (strip t)) = inl v ->
  asks_for_zero_posts
    (Prompt.batch_posts_prompt (Prompt.posts_text []) location 0)
  /\ (exists w', analyze_batch_social_posts env self [] location w
                 = (Returns v, w'))
  /\ (reports_no_posts v <->
      forall r w', analyze_batch_social_posts env self [] location w
                   = (Returns r, w') -> reports_no_posts r).
Proof.
  intros H Hj.
  split; [apply prompt_of_no_posts|].
  pose proof (batch_success env self [] location w H Hj) as E.
  split; [eexists; exact E|].
  split.
  - intros Hv r w' Hr. rewrite E in Hr. now injection Hr as <- _.
  - intros Hall. eapply Hall. exact E.
Qed.

Lemma batch_of_no_posts_returns_the_reply_witness :
  exists w',
    analyze_batch_social_posts
      (Examples.answering (Text Examples.text_four_posts)
         [(Examples.text_four_posts, Examples.value_four_posts)])
      Examples.a_detector [] "Los Angeles County Beaches" world0
    = (Returns Examples.value_four_posts, w').
Proof.
  apply (@batch_of_no_posts_returns_the_reply
           (Examples.answering (Text Examples.text_four_posts)
              [(Examples.text_four_posts, Examples.value_four_posts)])
           Examples.a_detector "Los Angeles County Beaches"
           Examples.text_four_posts Examples.value_four_posts world0
           eq_refl eq_refl).
Defined.

End Batch.

(** * Further properties of the code *)

(** ** The hazard scan, case by case *)

Section ScanCases.
Import PyStr OceanHazardDetector.

(** The scan has two outcomes: the model's object with the two metadata
    fields, or the [AttributeError] of the failed lookup. *)
Lemma scan_outcome (env : Env) (self : OceanHazardDetector.t)
    (location : string) (w : World) :
  (exists t d,
      hazard_scan_reply env self location w = Text t
      /\ is_empty t = false
      /\ json_loads env (strip_fences (strip t)) = inl (PDict d)
      /\ fst (analyze_current_hazards env self location w)
         = Returns
             (PDict (Dict.set "source" (PStr "gemini_web_analysis")
                       (Dict.set "processed_at"
                          (PStr (now_iso env (ticks w))) d))))
  \/ fst (analyze_current_hazards env self location w)
     = Raises (no_attribute "_create_error_response").
Proof.
  destruct (hazard_scan_reply env self location w) as [t|e] eqn:H.
  - destruct (is_empty t) eqn:Ht.
    + apply is_empty_true in Ht; subst t.
      right. now rewrite (scan_model_empty env self location w H).
    + destruct (json_loads env (strip_fences (strip t))) as [v|msg] eqn:Hj.
      * destruct v;
          try (right; apply (scan_value_not_object env self location w H Ht Hj);
               intros; discriminate).
        left. exists t, d. repeat split; try assumption.
        now rewrite (scan_success env self location w H Ht Hj).
      * right. now rewrite (scan_text_unparseable env self location w H Ht Hj).
  - right. now rewrite (scan_model_raises env self location w H).
Qed.

(** The scan returns exactly when the model gives non-empty text that
    parses, after lines 97-101, as an object; in every other case (no text,
    text that does not parse, a parsed list, string or number, a model call
    that raises) the caller gets the [AttributeError] and no object. *)
Theorem scan_returns_iff_model_object (env : Env)
    (self : OceanHazardDetector.t) (location : string) (w : World) :
  ((exists r, fst (analyze_current_hazards env self location w) = Returns r)
   <-> (exists t d,
           hazard_scan_reply env self location w = Text t
           /\ is_empty t = false
           /\ json_loads env (strip_fences (strip t)) = inl (PDict d)))
  /\ ((forall r, fst (analyze_current_hazards env self location w) <> Returns r)
      -> fst (analyze_current_hazards env self location w)
         = Raises (no_attribute "_create_error_response")).
Proof.
  destruct (scan_outcome env self location w) as [(t & d & H & Ht & Hj & E)|E].
  - split.
    + split; [intros _; now exists t, d | intros _; eexists; exact E].
    + intros Hno. now destruct (Hno _ E).
  - split; [|intros _; exact E].
    split.
    + intros (r & Hr). rewrite E in Hr. discriminate.
    + intros (t & d & H & Ht & Hj).
      rewrite (scan_success env self location w H Ht Hj) in E. discriminate.
Qed.

(** A parsed value that is not an object is not returned: the assignment
    of line 107 raises a [TypeError], which line 118 logs, and line 119
    raises the [AttributeError]. *)
Theorem scan_rejects_non_object (env : Env) (self : OceanHazardDetector.t)
    (location t : string) (v : pyval) (w : World) :
  hazard_scan_reply env self location w = Text t ->
  is_empty t = false ->
  json_loads env (strip_fences (strip t)) = inl v ->
  (forall d, v <> PDict d) ->
  exists w' msg,
    analyze_current_hazards env self location w
    = (Raises (no_attribute "_create_error_response"), w')
    /\ trace w'
       = trace w
         ++ [ModelCall (model self) (hazard_prompt location) None;
             LogError ("Error analyzing hazards: " ++ msg)]
    /\ fst (Py.setitem v "processed_at" (PStr (now_iso env (ticks w)))
              (after_tick (after_call (model self) (hazard_prompt location)
                             None w)))
       = Raises (Exn TypeError msg).
Proof.
  unfold hazard_scan_reply; intros H Ht Hj Hv.
  enter_scan.
  rewrite H, Ht.
  unfold try_except_json, bind at 1, loads.
  rewrite Hj.
  destruct v; try (now destruct (Hv d));
    (eexists; eexists; split; [reflexivity|]; split;
     [cbn [trace add_event after_tick after_call];
      rewrite <- !app_assoc; reflexivity
     | reflexivity]).
Qed.

Lemma scan_rejects_non_object_witness :
  exists w' msg,
    analyze_current_hazards
      (Examples.answering (Text "[]") [("[]", PList [])])
      Examples.a_detector "Malibu" world0
    = (Raises (no_attribute "_create_error_response"), w')
    /\ trace w'
       = [ModelCall "gemini-2.5-flash" (hazard_prompt "Malibu") None;
          LogError ("Error analyzing hazards: " ++ msg)].
Proof.
  destruct (@scan_rejects_non_object
              (Examples.answering (Text "[]") [("[]", PList [])])
              Examples.a_detector "Malibu" "[]" (PList []) world0
              eq_refl eq_refl eq_refl)
    as (w' & msg & H & Htr & _); [intros d; discriminate|].
  exists w', msg. split; [exact H | exact Htr].
Defined.

(** Whatever happens, the scan makes one model call and only one: to the
    text model, with the prompt for the location, without an image; the
    configured credential is left alone. *)
Theorem scan_calls_model_once (env : Env) (self : OceanHazardDetector.t)
    (location : string) (w : World) :
  exists o w' rest,
    analyze_current_hazards env self location w = (o, w')
    /\ calls w' = S (calls w)
    /\ api_key_cfg w' = api_key_cfg w
    /\ trace w'
       = trace w ++ ModelCall (model self) (hazard_prompt location) None :: rest
    /\ existsb is_model_call rest = false.
Proof.
  enter_scan.
  destruct (model_reply env (api_key_cfg w) (model self)
              (hazard_prompt location) None (calls w)) as [t|e].
  - destruct (is_empty t).
    + do 3 eexists; split; [reflexivity|].
      cbn [calls api_key_cfg trace add_event after_tick after_call].
      rewrite <- !app_assoc.
      repeat split; reflexivity.
    + unfold try_except_json, bind at 1, loads.
      destruct (json_loads env (strip_fences (strip t))) as [v|msg].
      * destruct v;
          (do 3 eexists; split; [reflexivity|];
           cbn [calls api_key_cfg trace add_event after_tick after_call];
           rewrite <- !app_assoc;
           repeat split; reflexivity).
      * do 3 eexists; split; [reflexivity|].
        cbn [calls api_key_cfg trace add_event after_tick after_call].
        rewrite <- !app_assoc.
        repeat split; reflexivity.
  - do 3 eexists; split; [reflexivity|].
    cbn [calls api_key_cfg trace add_event after_tick after_call].
    rewrite <- !app_assoc.
    repeat split; reflexivity.
Qed.

(** The scan prints nothing: its events are the model call and log
    entries. *)
Lemma scan_events (env : Env) (self : OceanHazardDetector.t)
    (location : string) (w : World) :
  exists o w' evs,
    analyze_current_hazards env self location w = (o, w')
    /\ calls w' = S (calls w)
    /\ trace w' = trace w ++ evs
    /\ existsb is_print evs = false.
Proof.
  enter_scan.
  destruct (model_reply env (api_key_cfg w) (model self)
              (hazard_prompt location) None (calls w)) as [t|e].
  - destruct (is_empty t).
    + do 3 eexists; split; [reflexivity|].
      cbn [calls trace add_event after_tick after_call].
      rewrite <- !app_assoc.
      repeat split; reflexivity.
    + unfold try_except_json, bind at 1, loads.
      destruct (json_loads env (strip_fences (strip t))) as [v|msg].
      * destruct v;
          (do 3 eexists; split; [reflexivity|];
           cbn [calls trace add_event after_tick after_call];
           rewrite <- !app_assoc;
           repeat split; reflexivity).
      * do 3 eexists; split; [reflexivity|].
        cbn [calls trace add_event after_tick after_call].
        rewrite <- !app_assoc.
        repeat split; reflexivity.
  - do 3 eexists; split; [reflexivity|].
    cbn [calls trace add_event after_tick after_call].
    rewrite <- !app_assoc.
    repeat split; reflexivity.
Qed.


End ScanCases.

(** ** Fences at the edges *)

Section FenceEdges.
Import PyStr OceanHazardDetector.

Lemma strip_json_fence_agrees (s : string) :
  startswith s "```json" = true -> strip_json_fence s = strip_fences s.
Proof.
  intros H. now rewrite strip_json_fence_json, strip_fences_json.
Qed.

(** Wrapping and unwrapping: a reply that puts the body between a fence
    line and a closing fence line comes out as the body without its
    surrounding white space, for both fences on the scan and batch paths and
    for the [```json] fence on the user-report path. *)
Theorem fenced_reply_is_unwrapped (body : string) :
  strip_fences (strip (fenced_json body)) = strip body
  /\ strip_fences (strip (fenced_bare body)) = strip body
  /\ strip_json_fence (strip (fenced_json body)) = strip body.
Proof.
  split; [apply clean_fenced_json|].
  split; [apply clean_fenced_bare|].
  rewrite strip_json_fence_agrees; [apply clean_fenced_json|].
  rewrite strip_fenced_json. apply (prefix_app_same "```json").
Qed.

(** The closing fence is not looked at: after an opening [```json] the
    last three characters are dropped whatever they are, so a reply without
    a closing fence loses the end of its payload. *)
Theorem fence_slice_drops_any_tail (m q : string) :
  String.length q = 3 ->
  strip_fences ("```json" ++ m ++ q) = strip m
  /\ strip_json_fence ("```json" ++ m ++ q) = strip m.
Proof.
  intros Hq.
  assert (E : strip_fences ("```json" ++ m ++ q) = strip m).
  { rewrite strip_fences_json by (apply (prefix_app_same "```json")).
    change 7 with (String.length "```json").
    rewrite <- Hq. now rewrite slice_app. }
  split; [exact E|].
  rewrite strip_json_fence_agrees by (apply (prefix_app_same "```json")).
  exact E.
Qed.

Lemma fence_slice_drops_any_tail_witness :
  strip_fences ("```json" ++ ("{" ++ dq ++ "a" ++ dq) ++ ": 1")%string
  = ("{" ++ dq ++ "a" ++ dq)%string.
Proof.
  rewrite (proj1 (@fence_slice_drops_any_tail
                    ("{" ++ dq ++ "a" ++ dq)%string ": 1" eq_refl)).
  reflexivity.
Defined.

Lemma length_zero_empty (s : string) : String.length s = 0 -> s = EmptyString.
Proof. destruct s; [reflexivity | discriminate]. Qed.

(** A fenced text too short to hold both fences is emptied, so the decoder
    is given the empty text. *)
Theorem short_fenced_text_is_emptied (s : string) :
  (startswith s "```json" = true -> String.length s <= 10 ->
   strip_fences s = EmptyString /\ strip_json_fence s = EmptyString)
  /\ (startswith s "```json" = false -> startswith s "```" = true ->
      String.length s <= 6 -> strip_fences s = EmptyString).
Proof.
  split.
  - intros H Hlen.
    assert (E : slice 7 3 s = EmptyString)
      by (apply length_zero_empty; rewrite length_slice; lia).
    rewrite strip_json_fence_json, strip_fences_json, E by exact H.
    split; reflexivity.
  - intros H1 H2 Hlen.
    assert (E : slice 3 3 s = EmptyString)
      by (apply length_zero_empty; rewrite length_slice; lia).
    now rewrite strip_fences_bare, E.
Qed.

Lemma short_fenced_text_is_emptied_witness :
  strip_fences "```json" = EmptyString
  /\ strip_json_fence "```json" = EmptyString.
Proof.
  apply (proj1 (short_fenced_text_is_emptied "```json")).
  - reflexivity.
  - simpl. lia.
Defined.

End FenceEdges.

(** ** The user-report path *)

Section UserReport.
Import PyStr OceanHazardDetector.

Lemma user_report_call_world (env : Env) (self : OceanHazardDetector.t)
    (report_text location : string) (image_data : option string) (w : World) :
  (if truthy image_data
   then generate_content env (vision_model self)
          (Prompt.user_report_prompt report_text location) image_data
   else generate_content env (model self)
          (Prompt.user_report_prompt report_text location) None) w
  = (match user_report_reply env self report_text location image_data w with
     | Text t => Returns t
     | Failure e => Raises e
     end,
     after_call (user_report_model self image_data)
       (Prompt.user_report_prompt report_text location)
       (user_report_image image_data) w).
Proof.
  unfold user_report_reply, user_report_model, user_report_image,
    generate_content.
  destruct (truthy image_data).
  - destruct (model_reply env (api_key_cfg w) (vision_model self)
                (Prompt.user_report_prompt report_text location) image_data
                (calls w)); reflexivity.
  - destruct (model_reply env (api_key_cfg w) (model self)
                (Prompt.user_report_prompt report_text location) None
                (calls w)); reflexivity.
Qed.

(** Enter the body of the user-report analysis up to the model's answer. *)
Ltac enter_user_report :=
  unfold analyze_user_report, try_except; unfold bind at 1;
  rewrite user_report_call_world.

(** The choice of the model: an image that is neither absent nor empty goes
    with the prompt to the vision model; otherwise the text model is called
    without an image. One call is made in either case. *)
Theorem user_report_calls_chosen_model (env : Env)
    (self : OceanHazardDetector.t) (report_text location : string)
    (image_data : option string) (w : World) :
  exists o w' rest,
    analyze_user_report env self report_text location image_data w = (o, w')
    /\ calls w' = S (calls w)
    /\ trace w'
       = trace w
         ++ ModelCall (user_report_model self image_data)
              (Prompt.user_report_prompt report_text location)
              (user_report_image image_data) :: rest
    /\ existsb is_model_call rest = false
    /\ (user_report_model self image_data = vision_model self
        /\ user_report_image image_data = image_data
        \/ user_report_model self image_data = model self
           /\ user_report_image image_data = None
           /\ (image_data = None \/ image_data = Some EmptyString)).
Proof.
  assert (Hchoice :
    user_report_model self image_data = vision_model self
    /\ user_report_image image_data = image_data
    \/ user_report_model self image_data = model self
       /\ user_report_image image_data = None
       /\ (image_data = None \/ image_data = Some EmptyString)).
  { unfold user_report_model, user_report_image.
    destruct image_data as [[|c s]|]; simpl; auto. }
  enter_user_report.
  destruct (user_report_reply env self report_text location image_data w)
    as [t|e].
  - unfold bind at 1, loads.
    destruct (json_loads env (strip_json_fence (strip t))) as [v|msg].
    + destruct v;
        (do 3 eexists; split; [reflexivity|];
         cbn [calls trace add_event after_tick after_call];
         rewrite <- ?app_assoc;
         repeat split; try reflexivity; exact Hchoice).
    + do 3 eexists; split; [reflexivity|].
      cbn [calls trace add_event after_tick after_call].
      rewrite <- ?app_assoc.
      repeat split; try reflexivity; exact Hchoice.
  - do 3 eexists; split; [reflexivity|].
    cbn [calls trace add_event after_tick after_call].
    rewrite <- ?app_assoc.
    repeat split; try reflexivity; exact Hchoice.
Qed.

(** Success on the user-report path: the parsed object comes back with
    [processed_at] set to the time of processing and every other field as
    parsed; no [source] is added and nothing is logged. *)
Theorem user_report_success (env : Env) (self : OceanHazardDetector.t)
    (report_text location : string) (image_data : option string)
    (t : string) (d : pydict) (w : World) :
  user_report_reply env self report_text location image_data w = Text t ->
  json_loads env (strip_json_fence (strip t)) = inl (PDict d) ->
  exists r w',
    analyze_user_report env self report_text location image_data w
    = (Returns (PDict r), w')
    /\ r = Dict.set "processed_at" (PStr (now_iso env (ticks w))) d
    /\ Dict.get "processed_at" r = Some (PStr (now_iso env (ticks w)))
    /\ (forall k, k <> "processed_at" -> Dict.get k r = Dict.get k d)
    /\ trace w'
       = trace w
         ++ [ModelCall (user_report_model self image_data)
               (Prompt.user_report_prompt report_text location)
               (user_report_image image_data)].
Proof.
  intros H Hj.
  enter_user_report.
  rewrite H.
  unfold bind at 1, loads.
  rewrite Hj.
  do 2 eexists; split; [reflexivity|].
  split; [reflexivity|].
  split; [apply get_set_same|].
  split; [intros k Hk; now apply get_set_other | reflexivity].
Qed.

Lemma user_report_success_witness :
  exists w',
    analyze_user_report
      (Examples.answering (Text (fenced_json Examples.text_is_hazard))
         [(Examples.text_is_hazard, Examples.value_is_hazard)])
      Examples.a_detector "I saw a large shark" "Malibu" None world0
    = (Returns (PDict [("is_hazard", PBool true); ("processed_at", PStr "T0")]),
       w').
Proof.
  destruct (@user_report_success
              (Examples.answering (Text (fenced_json Examples.text_is_hazard))
                 [(Examples.text_is_hazard, Examples.value_is_hazard)])
              Examples.a_detector "I saw a large shark" "Malibu" None
              (fenced_json Examples.text_is_hazard)
              [("is_hazard", PBool true)] world0 eq_refl eq_refl)
    as (r & w' & H & Hr & _).
  exists w'. rewrite H, Hr. reflexivity.
Defined.

(** Failure on the user-report path: whether the model call raises, the
    text does not parse (an empty text included) or the parsed value is not
    an object, the caller gets [{"error": str(e), "is_hazard": False}] for
    the exception [e] that occurred, and one error is logged. *)
Theorem user_report_failure_pair (env : Env) (self : OceanHazardDetector.t)
    (report_text location : string) (image_data : option string) (w : World) :
  (forall t d,
      user_report_reply env self report_text location image_data w = Text t ->
      json_loads env (strip_json_fence (strip t)) <> inl (PDict d)) ->
  exists e w',
    analyze_user_report env self report_text location image_data w
    = (Returns (error_pair e), w')
    /\ trace w'
       = trace w
         ++ [ModelCall (user_report_model self image_data)
               (Prompt.user_report_prompt report_text location)
               (user_report_image image_data);
             LogError ("Error analyzing user report: " ++ exn_str e)]
    /\ (user_report_reply env self report_text location image_data w
        = Failure e
        \/ (exists t,
               user_report_reply env self report_text location image_data w
               = Text t
               /\ (json_loads env (strip_json_fence (strip t))
                   = inr (exn_str e) /\ exn_cls e = JSONDecodeError
                   \/ exists v, json_loads env (strip_json_fence (strip t))
                                = inl v /\ exn_cls e = TypeError))).
Proof.
  intros Hno.
  enter_user_report.
  destruct (user_report_reply env self report_text location image_data w)
    as [t|e] eqn:H.
  - unfold bind at 1, loads.
    destruct (json_loads env (strip_json_fence (strip t))) as [v|msg] eqn:Hj.
    + destruct v; try (now destruct (Hno t d eq_refl Hj));
        (do 2 eexists; split; [reflexivity|];
         cbn [trace add_event after_tick after_call];
         rewrite <- ?app_assoc;
         split; [reflexivity|];
         right; eexists; split; [reflexivity|];
         right; eexists; split; [exact Hj | reflexivity]).
    + do 2 eexists; split; [reflexivity|].
      cbn [trace add_event after_tick after_call].
      rewrite <- ?app_assoc.
      split; [reflexivity|].
      right; eexists; split; [reflexivity|].
      left; split; [exact Hj | reflexivity].
  - do 2 eexists; split; [reflexivity|].
    cbn [trace add_event after_tick after_call].
    rewrite <- ?app_assoc.
    split; [reflexivity|].
    now left.
Qed.

Lemma user_report_failure_pair_witness :
  exists e w',
    analyze_user_report
      (Examples.answering (Failure Examples.a_network_error) [])
      Examples.a_detector "I saw a large shark" "Malibu" None world0
    = (Returns (error_pair e), w').
Proof.
  destruct (@user_report_failure_pair
              (Examples.answering (Failure Examples.a_network_error) [])
              Examples.a_detector "I saw a large shark" "Malibu" None world0)
    as (e & w' & H & _).
  - intros t d Habs. discriminate Habs.
  - now exists e, w'.
Defined.


(** The user-report analysis returns and prints nothing. *)
Lemma user_report_events (env : Env) (self : OceanHazardDetector.t)
    (report_text location : string) (image_data : option string) (w : World) :
  exists r w' evs,
    analyze_user_report env self report_text location image_data w
    = (Returns r, w')
    /\ calls w' = S (calls w)
    /\ trace w' = trace w ++ evs
    /\ existsb is_print evs = false.
Proof.
  enter_user_report.
  destruct (user_report_reply env self report_text location image_data w)
    as [t|e].
  - unfold bind at 1, loads.
    destruct (json_loads env (strip_json_fence (strip t))) as [v|msg].
    + destruct v;
        (do 3 eexists; split; [reflexivity|];
         cbn [calls trace add_event after_tick after_call];
         rewrite <- ?app_assoc;
         repeat split; reflexivity).
    + do 3 eexists; split; [reflexivity|].
      cbn [calls trace add_event after_tick after_call].
      rewrite <- ?app_assoc.
      repeat split; reflexivity.
  - do 3 eexists; split; [reflexivity|].
    cbn [calls trace add_event after_tick after_call].
    rewrite <- ?app_assoc.
    repeat split; reflexivity.
Qed.


End UserReport.

(** ** The batch path *)

Section BatchMore.
Import PyStr OceanHazardDetector.


Lemma numbered_nth (posts : list string) (i k : nat) (p : string) :
  nth_error posts k = Some p ->
  nth_error (Prompt.numbered i posts) k
  = Some ("Post " ++ of_nat (i + k + 1) ++ ": " ++ p)%string.
Proof.
  revert i k; induction posts as [|q posts IH]; intros i [|k] H;
    cbn [nth_error Prompt.numbered] in *; try discriminate.
  - injection H as ->. now rewrite Nat.add_0_r.
  - rewrite (IH (S i) k H).
    replace (S i + k + 1) with (i + S k + 1) by lia. reflexivity.
Qed.

Lemma numbered_length (posts : list string) (i : nat) :
  length (Prompt.numbered i posts) = length posts.
Proof.
  revert i; induction posts as [|q posts IH]; intros i; simpl;
    [reflexivity | now rewrite IH].
Qed.

(** The posts are put in the prompt in their order, each once, the post at
    index [k] under the number [k + 1]; the text of one post is
    ["Post 1: "] followed by the post. *)
Theorem posts_are_numbered_from_one (posts : list string) :
  length (Prompt.numbered 0 posts) = length posts
  /\ (forall k p, nth_error posts k = Some p ->
        nth_error (Prompt.numbered 0 posts) k
        = Some ("Post " ++ of_nat (k + 1) ++ ": " ++ p)%string)
  /\ (forall p, Prompt.posts_text [p] = ("Post 1: " ++ p)%string)
  /\ Prompt.posts_text posts
     = join (nl ++ nl ++ "---POST---" ++ nl) (Prompt.numbered 0 posts).
Proof.
  split; [apply numbered_length|].
  split; [intros k p H; apply (numbered_nth posts 0 k H)|].
  split; reflexivity.
Qed.

End BatchMore.

(** ** The alert *)

Section Alert.
Import HazardMonitoringService.

Lemma trace_after_events (evs : list event) (w : World) :
  trace (after_events evs w) = trace w ++ evs.
Proof.
  revert w; induction evs as [|ev evs IH]; intros w; simpl.
  - now rewrite app_nil_r.
  - unfold after_events in IH. rewrite IH. simpl.
    now rewrite <- app_assoc.
Qed.

Lemma after_events_cons (ev : event) (evs : list event) (w : World) :
  after_events (ev :: evs) w = after_events evs (add_event ev w).
Proof. reflexivity. Qed.

(** Line 280 for one entry: an object with a [type] and a [description]
    is printed; anything else raises ([KeyError] for a missing field,
    [TypeError] for an entry that is not an object) and prints nothing. *)
Lemma alert_line (hazard : pyval) (w : World) :
  (exists ty description,
      hazard_fields hazard = Some (ty, description)
      /\ (ty <- Py.getitem hazard "type" ;;
          description <- Py.getitem hazard "description" ;;
          emit (Print [Lit "- "; Fmt ty; Lit ": "; Fmt description]))%py w
         = (Returns tt, add_event (hazard_line ty description) w))
  \/ (hazard_fields hazard = None
      /\ exists e,
           (ty <- Py.getitem hazard "type" ;;
            description <- Py.getitem hazard "description" ;;
            emit (Print [Lit "- "; Fmt ty; Lit ": "; Fmt description]))%py w
           = (Raises e, w)
           /\ (exn_cls e = KeyError \/ exn_cls e = TypeError)).
Proof.
  destruct hazard as [| | | | |l|d];
    try (right; split; [reflexivity|]; eexists; split;
         [reflexivity | now right]).
  unfold hazard_fields, bind, Py.getitem.
  destruct (Dict.get "type" d) as [ty|].
  - destruct (Dict.get "description" d) as [description|].
    + left. exists ty, description. split; reflexivity.
    + right. split; [reflexivity|]. eexists; split; [reflexivity | now left].
  - right. split; [reflexivity|]. eexists; split; [reflexivity | now left].
Qed.

(** The loop of lines 279-280: the well-formed entries are printed in
    order up to the first entry that is not an object with a [type] and a
    [description], where the loop raises. *)
Lemma alert_loop (hazards : list pyval) (w : World) :
  exists o,
    Py.for_each hazards
      (fun hazard =>
         ty <- Py.getitem hazard "type" ;;
         description <- Py.getitem hazard "description" ;;
         emit (Print [Lit "- "; Fmt ty; Lit ": "; Fmt description]))%py w
    = (o, after_events (hazard_lines hazards) w)
    /\ (forallb well_formed_hazard hazards = true -> o = Returns tt)
    /\ (forallb well_formed_hazard hazards = false ->
        exists e, o = Raises e
                  /\ (exn_cls e = KeyError \/ exn_cls e = TypeError)).
Proof.
  revert w; induction hazards as [|h hazards IH]; intros w.
  - exists (Returns tt).
    split; [reflexivity|]. split; [intros _; reflexivity | discriminate].
  - cbn [Py.for_each hazard_lines forallb].
    unfold well_formed_hazard at 1 3.
    unfold bind at 1.
    destruct (alert_line h w)
      as [(ty & description & Hf & Hb) | (Hf & e & Hb & He)];
      rewrite Hb, Hf.
    + destruct (IH (add_event (hazard_line ty description) w))
        as (o & Ho & Hok & Hbad).
      exists o. split; [exact Ho|]. split; assumption.
    + exists (Raises e). split; [reflexivity|].
      split; [discriminate | intros _; now exists e].
Qed.

(** Lines 277-279: with a risk level in the report, the two head lines
    are printed and the loop runs over the [hazards] field, or over the
    empty list when the field is missing. *)
Lemma send_alert_head (location : string) (d : pydict) (level : pyval)
    (w : World) :
  Dict.get "overall_risk_level" d = Some level ->
  send_alert location (PDict d) w
  = (hazards <- Py.iter (match Dict.get "hazards" d with
                         | Some v => v
                         | None => PList []
                         end) ;;
     Py.for_each hazards
       (fun hazard =>
          ty <- Py.getitem hazard "type" ;;
          description <- Py.getitem hazard "description" ;;
          emit (Print [Lit "- "; Fmt ty; Lit ": "; Fmt description])))%py
      (after_events (alert_head location level) w).
Proof.
  intros Hl.
  unfold send_alert.
  unfold bind at 1. unfold emit at 1.
  unfold bind at 1. cbn [Py.getitem]. rewrite Hl. unfold ret at 1.
  unfold bind at 1. unfold emit at 1.
  unfold bind at 1. unfold Py.get_default. unfold bind at 1. cbn [Py.get].
  unfold ret at 1. unfold ret at 1.
  reflexivity.
Qed.

Lemma hazard_lines_length (hazards : list pyval) :
  forallb well_formed_hazard hazards = true ->
  length (hazard_lines hazards) = length hazards.
Proof.
  induction hazards as [|h hazards IH]; intros Hwf; [reflexivity|].
  cbn [forallb] in Hwf. apply andb_prop in Hwf. destruct Hwf as [H1 H2].
  cbn [hazard_lines]. unfold well_formed_hazard in H1.
  destruct (hazard_fields h) as [[ty description]|]; [|discriminate].
  simpl. now rewrite IH.
Qed.

(** An alert for a report whose hazards are all well formed prints the
    header, the risk level and one line per hazard, in order, and returns;
    a report without a [hazards] field is treated as one with no hazards. *)
Theorem send_alert_prints_every_hazard (location : string) (d : pydict)
    (level : pyval) (hazards : list pyval) (w : World) :
  Dict.get "overall_risk_level" d = Some level ->
  Dict.get "hazards" d = Some (PList hazards)
  \/ (Dict.get "hazards" d = None /\ hazards = []) ->
  forallb well_formed_hazard hazards = true ->
  send_alert location (PDict d) w
  = (Returns tt,
     after_events (alert_head location level ++ hazard_lines hazards) w)
  /\ length (hazard_lines hazards) = length hazards.
Proof.
  intros Hl Hh Hwf.
  split; [|now apply hazard_lines_length].
  rewrite (send_alert_head location d w Hl).
  assert (Hi : Py.iter (match Dict.get "hazards" d with
                        | Some v => v
                        | None => PList []
                        end) = ret hazards)
    by (destruct Hh as [-> | [-> ->]]; reflexivity).
  rewrite Hi. unfold bind at 1, ret at 1.
  destruct (alert_loop hazards (after_events (alert_head location level) w))
    as (o & Ho & Hok & _).
  rewrite Ho, (Hok Hwf), after_events_app. reflexivity.
Qed.

Lemma send_alert_prints_every_hazard_witness :
  send_alert "Malibu"
    (PDict [("overall_risk_level", PStr "HIGH");
            ("hazards",
             PList [PDict [("type", PStr "shark");
                           ("description", PStr "seen near the pier")]])])
    world0
  = (Returns tt,
     mkWorld None 0 0
       (alert_head "Malibu" (PStr "HIGH")
        ++ [hazard_line (PStr "shark") (PStr "seen near the pier")])).
Proof.
  rewrite (proj1 (@send_alert_prints_every_hazard "Malibu"
    [("overall_risk_level", PStr "HIGH");
     ("hazards",
      PList [PDict [("type", PStr "shark");
                    ("description", PStr "seen near the pier")]])]
    (PStr "HIGH")
    [PDict [("type", PStr "shark"); ("description", PStr "seen near the pier")]]
    world0 eq_refl (or_introl eq_refl) eq_refl)).
  reflexivity.
Defined.

(** An alert stops at the first hazard entry that is not an object with a
    [type] and a [description]: the lines before it have been printed, the
    entries after it are never reported, and the exception ([KeyError] or
    [TypeError]) goes to the caller. *)
Theorem send_alert_stops_at_malformed_entry (location : string) (d : pydict)
    (level : pyval) (before after : list pyval) (bad : pyval) (w : World) :
  Dict.get "overall_risk_level" d = Some level ->
  Dict.get "hazards" d = Some (PList (before ++ bad :: after)) ->
  forallb well_formed_hazard before = true ->
  well_formed_hazard bad = false ->
  exists e,
    send_alert location (PDict d) w
    = (Raises e,
       after_events (alert_head location level ++ hazard_lines before) w)
    /\ (exn_cls e = KeyError \/ exn_cls e = TypeError)
    /\ length (hazard_lines before) = length before.
Proof.
  intros Hl Hh Hwf Hbad.
  rewrite (send_alert_head location d w Hl), Hh.
  cbn [Py.iter]. unfold bind at 1, ret at 1.
  destruct (alert_loop (before ++ bad :: after)
              (after_events (alert_head location level) w))
    as (o & Ho & _ & Hraise).
  destruct Hraise as (e & -> & He).
  { rewrite forallb_app. cbn [forallb]. rewrite Hbad.
    now rewrite andb_false_r. }
  exists e. split; [|split; [exact He | now apply hazard_lines_length]].
  rewrite Ho, after_events_app. do 2 f_equal.
  clear - Hwf Hbad.
  induction before as [|h before IH]; cbn [app hazard_lines].
  - unfold well_formed_hazard in Hbad.
    now destruct (hazard_fields bad).
  - cbn [forallb] in Hwf. apply andb_prop in Hwf. destruct Hwf as [H1 H2].
    unfold well_formed_hazard in H1.
    destruct (hazard_fields h) as [[ty description]|]; [|discriminate].
    now rewrite (IH H2).
Qed.

Lemma send_alert_stops_at_malformed_entry_witness :
  exists e,
    send_alert "Malibu"
      (PDict [("overall_risk_level", PStr "HIGH");
              ("hazards",
               PList [PDict [("type", PStr "shark");
                             ("description", PStr "seen near the pier")];
                      PDict [("type", PStr "riptide")];
                      PDict [("type", PStr "jellyfish");
                             ("description", PStr "bloom")]])])
      world0
    = (Raises e,
       mkWorld None 0 0
         (alert_head "Malibu" (PStr "HIGH")
          ++ [hazard_line (PStr "shark") (PStr "seen near the pier")])).
Proof.
  destruct (@send_alert_stops_at_malformed_entry "Malibu"
    [("overall_risk_level", PStr "HIGH");
     ("hazards",
      PList [PDict [("type", PStr "shark");
                    ("description", PStr "seen near the pier")];
             PDict [("type", PStr "riptide")];
             PDict [("type", PStr "jellyfish");
                    ("description", PStr "bloom")]])]
    (PStr "HIGH")
    [PDict [("type", PStr "shark"); ("description", PStr "seen near the pier")]]
    [PDict [("type", PStr "jellyfish"); ("description", PStr "bloom")]]
    (PDict [("type", PStr "riptide")])
    world0 eq_refl eq_refl eq_refl eq_refl) as (e & H & _).
  exists e. rewrite H. reflexivity.
Defined.

End Alert.

(** ** The aggregator's body *)

Section AggregatorBody.
Import OceanHazardDetector.


Lemma set_fresh (k : string) (v : pyval) (d : pydict) :
  ~ In k (Dict.keys d) -> Dict.set k v d = d ++ [(k, v)].
Proof.
  unfold Dict.keys; induction d as [|[k' v'] d IH]; simpl; intros H;
    [reflexivity|].
  destruct (String.eqb k k') eqn:E.
  - apply String.eqb_eq in E. subst. tauto.
  - rewrite IH by tauto. reflexivity.
Qed.

Lemma fold_set_distinct (l : list (string * pyval)) (acc : pydict) :
  NoDup (Dict.keys acc ++ map fst l) ->
  fold_left (fun d kv => Dict.set (fst kv) (snd kv) d) l acc = acc ++ l.
Proof.
  revert acc; induction l as [|[k v] l IH]; intros acc H; simpl.
  - now rewrite app_nil_r.
  - simpl in H.
    assert (Hk : ~ In k (Dict.keys acc)).
    { apply NoDup_remove_2 in H. intros Hin. apply H.
      apply in_or_app. now left. }
    rewrite (set_fresh k v acc Hk), IH.
    + now rewrite <- app_assoc.
    + unfold Dict.keys in *. rewrite map_app, <- app_assoc. exact H.
Qed.


(** For distinct locations the mapping lists them in the order given. *)
Theorem aggregator_keeps_input_order (env : Env)
    (self : OceanHazardDetector.t) (locations : list string) (w : World) :
  NoDup locations ->
  exists now per w',
    get_multi_location_analysis env self locations w
    = (Returns (PDict [("analysis_time", PStr now); ("locations", PDict per)]),
       w')
    /\ Dict.keys per = locations.
Proof.
  intros Hnd.
  unfold get_multi_location_analysis, bind at 1.
  destruct (gather_returns (map (analyze_current_hazards env self) locations) w)
    as (os & w1 & Hg & Hlen).
  rewrite Hg. rewrite length_map in Hlen.
  do 3 eexists; split; [reflexivity|].
  unfold Dict.of_pairs.
  rewrite fold_set_distinct.
  - simpl. unfold Dict.keys. now apply map_fst_combine.
  - simpl. now rewrite map_fst_combine.
Qed.

Lemma aggregator_keeps_input_order_witness :
  exists now per w',
    get_multi_location_analysis
      (Examples.answering (Text Examples.text_report)
         [(Examples.text_report, Examples.value_report)])
      Examples.a_detector sample_locations world0
    = (Returns (PDict [("analysis_time", PStr now); ("locations", PDict per)]),
       w')
    /\ Dict.keys per = ["Santa Monica"; "Venice Beach"; "Manhattan Beach"].
Proof.
  apply (@aggregator_keeps_input_order
           (Examples.answering (Text Examples.text_report)
              [(Examples.text_report, Examples.value_report)])
           Examples.a_detector sample_locations world0).
  repeat constructor; simpl; intuition discriminate.
Defined.

End AggregatorBody.

(** ** The HTTP surface, startup and main *)

Section Surface.


(** [POST /analyze-user-report] never answers 500: whatever the model and
    the decoder do, the body is the analysis with [processed_at] or the
    [{error, is_hazard: false}] pair, with status 200. *)
Theorem analyze_user_report_always_200 (env : Env)
    (detector : OceanHazardDetector.t) (report location : string)
    (w : World) :
  exists r w',
    Endpoints.analyze_user_report env detector report location w
    = (Endpoints.Ok r, w')
    /\ ((exists e, r = error_pair e)
        \/ (exists d, r = PDict d /\ Dict.get "processed_at" d <> None)).
Proof.
  unfold Endpoints.analyze_user_report.
  destruct (user_report_returns env detector report location None w)
    as (r & w' & H & Hr).
  rewrite H. now exists r, w'.
Qed.

(** Startup (lines 305-310): without a credential, or with an empty one,
    a [ValueError] stops the start and nothing is configured; with any
    other credential the client is configured, with ["API_KEY"]. *)
Theorem startup_needs_a_credential (credential : option string) (w : World) :
  (OceanHazardDetector.truthy credential = false ->
   startup credential w
   = (Raises (Exn (OtherException "ValueError")
                "GEMINI_API_KEY not found in .env file"), w))
  /\ (OceanHazardDetector.truthy credential = true ->
      startup credential w
      = (Returns (OceanHazardDetector.mk "gemini-2.5-flash"
                    "gemini-2.5-flash-vision"),
         mkWorld (Some "API_KEY") (calls w) (ticks w)
           (trace w ++ [Configure "API_KEY"]))).
Proof.
  destruct credential as [[|c k]|]; simpl; split; intros H;
    try discriminate; reflexivity.
Qed.

Lemma startup_needs_a_credential_witness :
  startup (Some EmptyString) world0
  = (Raises (Exn (OtherException "ValueError")
               "GEMINI_API_KEY not found in .env file"), world0).
Proof.
  apply (proj1 (startup_needs_a_credential (Some EmptyString) world0)).
  reflexivity.
Defined.

(** [main] never runs to its end: it stops with the [ValueError] of a
    missing credential; or with the [AttributeError] of a failed first
    scan, after the first header; or at the latest on line 353, where
    [analyze_batch_social_posts] is called as a method the detector does
    not have, after the two analyses and the third header have been
    printed. The fourth header is never printed, the aggregator is never
    called and at most two model calls are made. *)
Theorem main_never_completes (env : Env) (json_dumps : pyval -> string)
    (credential : option string) (w : World) :
  exists e w',
    main env json_dumps credential w = (Raises e, w')
    /\ calls w' <= calls w + 2
    /\ ((e = Exn (OtherException "ValueError")
               "GEMINI_API_KEY not found in .env file"
         /\ w' = w)
        \/ (exists evs,
               e = OceanHazardDetector.no_attribute "_create_error_response"
               /\ existsb is_print evs = false
               /\ trace w'
                  = trace w
                    ++ [Configure "API_KEY";
                        Print [Lit "=== CURRENT HAZARD ANALYSIS ==="]]
                    ++ evs)
        \/ (exists hazards analysis evs1 evs2,
               e = OceanHazardDetector.no_attribute "analyze_batch_social_posts"
               /\ existsb is_print evs1 = false
               /\ existsb is_print evs2 = false
               /\ trace w'
                  = trace w
                    ++ [Configure "API_KEY";
                        Print [Lit "=== CURRENT HAZARD ANALYSIS ==="]]
                    ++ evs1
                    ++ [Print [Lit (json_dumps hazards)];
                        Print [Lit (PyStr.nl ++ "=== USER REPORT ANALYSIS ===")]]
                    ++ evs2
                    ++ [Print [Lit (json_dumps analysis)];
                        Print [Lit (PyStr.nl
                                    ++ "=== BATCH SOCIAL MEDIA ANALYSIS ===")]])).
Proof.
  unfold main. unfold bind at 1.
  destruct credential as [[|c k]|];
    try (do 2 eexists; split; [reflexivity|]; split; [simpl; lia|];
         left; split; reflexivity).
  cbn [startup]. unfold OceanHazardDetector.__init__, bind at 1.
  unfold genai_configure at 1, ret at 1. cbv beta iota.
  unfold bind at 1, emit at 1.
  unfold bind at 1.
  rewrite call_method_bound by reflexivity.
  set (d := OceanHazardDetector.mk "gemini-2.5-flash" "gemini-2.5-flash-vision").
  set (w0 := add_event (Print [Lit "=== CURRENT HAZARD ANALYSIS ==="])
               (mkWorld (Some "API_KEY") (calls w) (ticks w)
                  (trace w ++ [Configure "API_KEY"]))).
  destruct (scan_events env d "Santa Monica Beach, California" w0)
    as (o & w1 & evs1 & Hs & Hc1 & Ht1 & Hp1).
  rewrite Hs.
  destruct (scan_outcome env d "Santa Monica Beach, California" w0)
    as [(t & dd & _ & _ & _ & E)|E]; rewrite Hs in E; simpl in E; subst o.
  - unfold bind at 1, emit at 1.
    unfold bind at 1, emit at 1.
    unfold bind at 1.
    rewrite call_method_bound by reflexivity.
    match goal with
    | |- context [OceanHazardDetector.analyze_user_report env d
                    sample_user_report "Malibu Beach, California" None ?wa] =>
        destruct (user_report_events env d sample_user_report
                    "Malibu Beach, California" None wa)
          as (r & w2 & evs2 & Hu & Hc2 & Ht2 & Hp2)
    end.
    rewrite Hu.
    unfold bind at 1, emit at 1.
    unfold bind at 1, emit at 1.
    unfold bind at 1. rewrite call_method_unbound by reflexivity.
    do 2 eexists; split; [reflexivity|].
    split.
    + cbn [calls add_event]. rewrite Hc2. cbn [calls add_event].
      rewrite Hc1. subst w0. simpl. lia.
    + right; right. do 4 eexists. split; [reflexivity|].
      split; [exact Hp1|]. split; [exact Hp2|].
      cbn [trace add_event]. rewrite Ht2. cbn [trace add_event].
      rewrite Ht1. subst w0. cbn [trace add_event].
      rewrite <- !app_assoc. reflexivity.
  - do 2 eexists; split; [reflexivity|].
    split; [rewrite Hc1; subst w0; simpl; lia|].
    right; left. exists evs1. split; [reflexivity|]. split; [exact Hp1|].
    rewrite Ht1. subst w0. cbn [trace add_event].
    rewrite <- !app_assoc. reflexivity.
Qed.


End Surface.

(** ** The hazard prompt *)

Section HazardPrompt.
Import PyStr.

Lemma hazard_prompt_parts (location time_range : string) :
  Prompt.create_hazard_analysis_prompt location time_range
  = (PromptParts.hazard_head ++ location ++ " within the last " ++ time_range
     ++ PromptParts.hazard_middle ++ location ++ PromptParts.hazard_tail)%string.
Proof. reflexivity. Qed.

Lemma append_cancel_l (a b c : string) : (a ++ b = a ++ c)%string -> b = c.
Proof.
  induction a as [|x a IH]; simpl; intros H; [exact H|].
  injection H as H. now apply IH.
Qed.

Lemma append_same_length (a1 a2 b1 b2 : string) :
  (a1 ++ b1 = a2 ++ b2)%string -> String.length a1 = String.length a2 ->
  a1 = a2.
Proof.
  revert a2; induction a1 as [|x a1 IH]; intros [|y a2] H Hlen; simpl in *;
    try discriminate; [reflexivity|].
  injection H as -> H. f_equal. apply (IH a2 H). lia.
Qed.

(** The prompt holds the location as it is given, without any escaping,
    once in the instruction and once in the schema, and the time range
    once; prompts for the same time range and different locations are
    different, so each location is asked about by a prompt of its own. *)
Theorem hazard_prompt_embeds_location (time_range : string) :
  (forall location,
      Prompt.create_hazard_analysis_prompt location time_range
      = (PromptParts.hazard_head ++ location ++ " within the last "
         ++ time_range ++ PromptParts.hazard_middle ++ location
         ++ PromptParts.hazard_tail)%string)
  /\ (forall l1 l2,
         Prompt.create_hazard_analysis_prompt l1 time_range
         = Prompt.create_hazard_analysis_prompt l2 time_range ->
         l1 = l2).
Proof.
  split; [intros; apply hazard_prompt_parts|].
  intros l1 l2 H.
  rewrite !hazard_prompt_parts in H.
  pose proof (f_equal String.length H) as Hlen.
  apply append_cancel_l in H.
  apply (append_same_length _ _ _ _ H).
  rewrite !length_append in Hlen. lia.
Qed.

End HazardPrompt.

(** ** The monitor's pauses *)

Section MonitorMore.
Import HazardMonitoringService.

Lemma monitor_turns (turns : nat) (env : Env)
    (self : HazardMonitoringService.t) (locations : list string)
    (interval_minutes : Z) (w : World) :
  continuous_monitoring turns env self locations interval_minutes w
  = (StillRunning,
     after_events (concat (repeat (failed_cycle_events locations) turns)) w).
Proof.
  revert w; induction turns as [|n IH]; intros w; [reflexivity|].
  cbn [continuous_monitoring repeat concat].
  rewrite cycle_fails_and_pauses, after_events_app.
  apply IH.
Qed.

Lemma calls_after_events (evs : list event) (w : World) :
  calls (after_events evs w) = calls w /\ ticks (after_events evs w) = ticks w.
Proof.
  revert w; induction evs as [|ev evs IH]; intros w; [split; reflexivity|].
  rewrite after_events_cons.
  destruct (IH (add_event ev w)) as [-> ->]. split; reflexivity.
Qed.

Lemma seconds_slept_app (a b : list event) :
  seconds_slept (a ++ b) = (seconds_slept a + seconds_slept b)%Z.
Proof.
  induction a as [|ev a IH]; [reflexivity|].
  destruct ev; cbn [app seconds_slept]; rewrite IH; lia.
Qed.

(** What the monitor does depends neither on [interval_minutes] nor on the
    model: the configured interval is never waited, no model call is made
    and the clock is never read; after any number of turns the pauses add up
    to 60 seconds per turn. *)
Theorem monitor_ignores_interval_and_model (turns : nat) (env1 env2 : Env)
    (self : HazardMonitoringService.t) (locations : list string)
    (interval1 interval2 : Z) (w : World) :
  continuous_monitoring turns env1 self locations interval1 w
  = continuous_monitoring turns env2 self locations interval2 w
  /\ exists w' evs,
       continuous_monitoring turns env1 self locations interval1 w
       = (StillRunning, w')
       /\ calls w' = calls w
       /\ ticks w' = ticks w
       /\ trace w' = trace w ++ evs
       /\ existsb is_model_call evs = false
       /\ seconds_slept evs = (60 * Z.of_nat turns)%Z.
Proof.
  rewrite !monitor_turns. split; [reflexivity|].
  do 2 eexists; split; [reflexivity|].
  destruct (calls_after_events
              (concat (repeat (failed_cycle_events locations) turns)) w)
    as [Hc Ht].
  split; [exact Hc|]. split; [exact Ht|].
  split; [apply trace_after_events|].
  clear Hc Ht.
  split.
  - induction turns as [|n IH]; [reflexivity | exact IH].
  - induction turns as [|n IH]; [reflexivity|].
    cbn [repeat concat]. rewrite seconds_slept_app, IH.
    cbn [failed_cycle_events seconds_slept]. lia.
Qed.

End MonitorMore.
